(** * The [awsS3Credentials] endpoint of the auth service

    Shallow embedding of [services/auth/src/aws.js]: the route
    declaration (scope template) and the request handler that validates
    the URL parameters, asks for authorization, builds an IAM policy,
    exchanges it with STS for temporary credentials and renders the reply.

    JavaScript strings are modelled as [string]: sequences of code units.
    Every character the handler inspects or inserts is ASCII, so the
    model is insensitive to the encoding of the other characters. *)

From Stdlib Require Import String Ascii List Bool Arith ZArith Lia.
Import ListNotations.

Open Scope string_scope.

(* ------------------------------------------------------------------ *)
(** ** JavaScript string primitives used by the handler                 *)
(* ------------------------------------------------------------------ *)

Module JS.

(** [s.startsWith(p)]: the code units of [p] are the first ones of [s]. *)
Fixpoint startsWith (p s : string) : bool :=
  match p, s with
  | EmptyString, _ => true
  | String a p', String b s' => Ascii.eqb a b && startsWith p' s'
  | String _ _, EmptyString => false
  end.

(** [s.substring(n)]. *)
Fixpoint drop (n : nat) (s : string) : string :=
  match n, s with
  | O, _ => s
  | S n', String _ s' => drop n' s'
  | S _, EmptyString => EmptyString
  end.

(** The first occurrence of [pat] in [s], as the pair of the text before
    the match and the text after it ([None] when [pat] does not occur). *)
Fixpoint splitAtFirst (pat s : string) : option (string * string) :=
  if startsWith pat s then Some (EmptyString, drop (String.length pat) s)
  else match s with
       | EmptyString => None
       | String c s' =>
           match splitAtFirst pat s' with
           | Some (before, after) => Some (String c before, after)
           | None => None
           end
       end.

(** ECMAScript [GetSubstitution] for a string pattern (no capture groups):
    in the replacement text [$$] stands for a dollar sign, [$&] for the
    matched text, [$`] for the text before the match and [$'] for the text
    after it.  A dollar sign followed by anything else (digits included,
    as there is no capture to refer to) is copied as it is. *)
Fixpoint GetSubstitution (matched before after template : string) : string :=
  match template with
  | EmptyString => EmptyString
  | String c rest =>
      if Ascii.eqb c "$" then
        match rest with
        | String d rest' =>
            if Ascii.eqb d "$" then
              String "$" (GetSubstitution matched before after rest')
            else if Ascii.eqb d "&" then
              matched ++ GetSubstitution matched before after rest'
            else if Ascii.eqb d "`" then
              before ++ GetSubstitution matched before after rest'
            else if Ascii.eqb d "'" then
              after ++ GetSubstitution matched before after rest'
            else String c (GetSubstitution matched before after rest)
        | EmptyString => String c EmptyString
        end
      else String c (GetSubstitution matched before after rest)
  end.

(** [s.replace(pat, replacement)] with a string pattern: only the first
    occurrence is replaced, and the replacement text goes through
    [GetSubstitution]. *)
Definition replace (pat replacement s : string) : string :=
  match splitAtFirst pat s with
  | None => s
  | Some (before, after) =>
      before ++ GetSubstitution pat before after replacement ++ after
  end.

(** [s[0] === c]: false on the empty string, where [s[0]] is [undefined]. *)
Definition firstCharIs (c : ascii) (s : string) : bool :=
  match s with
  | String a _ => Ascii.eqb a c
  | EmptyString => false
  end.

End JS.

(* ------------------------------------------------------------------ *)
(** ** JSON values and [JSON.stringify]                                 *)
(* ------------------------------------------------------------------ *)

#[warnings="-register-all"]
Inductive json : Type :=
| JString (s : string)
| JArray (items : list json)
| JObject (fields : list (string * json)).

Module JSON.

Definition hexDigit (n : nat) : ascii :=
  match n with
  | 0 => "0" | 1 => "1" | 2 => "2" | 3 => "3" | 4 => "4" | 5 => "5"
  | 6 => "6" | 7 => "7" | 8 => "8" | 9 => "9" | 10 => "a" | 11 => "b"
  | 12 => "c" | 13 => "d" | 14 => "e" | _ => "f"
  end%char.

(** One code unit inside a JSON string literal ([QuoteJSONString]). *)
Definition quoteChar (c : ascii) : string :=
  let n := nat_of_ascii c in
  if Nat.eqb n 34 then String "\" (String c EmptyString)
  else if Nat.eqb n 92 then "\\"
  else if Nat.eqb n 8 then "\b"
  else if Nat.eqb n 9 then "\t"
  else if Nat.eqb n 10 then "\n"
  else if Nat.eqb n 12 then "\f"
  else if Nat.eqb n 13 then "\r"
  else if Nat.ltb n 32 then
    "\u00" ++ String (hexDigit (n / 16))
                 (String (hexDigit (n mod 16)) EmptyString)
  else String c EmptyString.

Fixpoint quoteBody (s : string) : string :=
  match s with
  | EmptyString => EmptyString
  | String c s' => quoteChar c ++ quoteBody s'
  end.

Definition quote (s : string) : string :=
  String (ascii_of_nat 34)
         (quoteBody s ++ String (ascii_of_nat 34) EmptyString).

Definition commaSep (parts : list string) : string :=
  String.concat "," parts.

(** [JSON.stringify(v)] without indentation, members in insertion order. *)
Fixpoint stringify (v : json) : string :=
  match v with
  | JString s => quote s
  | JArray items => "[" ++ commaSep (map stringify items) ++ "]"
  | JObject fields =>
      "{" ++ commaSep (map (fun kv => quote (fst kv) ++ ":" ++ stringify (snd kv))
                           fields) ++ "}"
  end.

(** [v[k]] on an object. *)
Fixpoint lookup (k : string) (fields : list (string * json)) : option json :=
  match fields with
  | [] => None
  | (k', v) :: rest => if String.eqb k k' then Some v else lookup k rest
  end.

Definition get (k : string) (v : json) : option json :=
  match v with
  | JObject fields => lookup k fields
  | _ => None
  end.

(** [v[i]] on an array. *)
Definition at_ (i : nat) (v : json) : option json :=
  match v with
  | JArray items => nth_error items i
  | _ => None
  end.

(** [Object.keys(v)]. *)
Definition keys (v : json) : list string :=
  match v with
  | JObject fields => map fst fields
  | _ => []
  end.

(** The strings of an array of strings. *)
Definition strings (v : json) : list string :=
  match v with
  | JArray items =>
      flat_map (fun i => match i with JString s => [s] | _ => [] end) items
  | _ => []
  end.

End JSON.

(** A reader for the texts [JSON.stringify] produces from [json] values,
    used to show that a text determines the value it was made from.
    [fuel] bounds the number of nested calls. *)
Module Decode.

Definition hexValue (c : ascii) : option nat :=
  let n := nat_of_ascii c in
  if Nat.leb 48 n && Nat.leb n 57 then Some (n - 48)
  else if Nat.leb 97 n && Nat.leb n 102 then Some (n - 87)
  else None.

(** Prepends a code unit to the string read after it. *)
Definition consChar (c : ascii) (r : option (string * string))
  : option (string * string) :=
  match r with
  | Some (s, rest) => Some (String c s, rest)
  | None => None
  end.

(** Reads the inside of a string literal up to its closing quote and
    returns the string denoted and the text after the quote. *)
Fixpoint stringBody (s : string) : option (string * string) :=
  match s with
  | EmptyString => None
  | String c rest =>
      let n := nat_of_ascii c in
      if Nat.eqb n 34 then Some (EmptyString, rest)
      else if Nat.eqb n 92 then
        match rest with
        | EmptyString => None
        | String e rest1 =>
            let m := nat_of_ascii e in
            if Nat.eqb m 34 then consChar e (stringBody rest1)
            else if Nat.eqb m 92 then consChar e (stringBody rest1)
            else if Nat.eqb m 98 then
              consChar (ascii_of_nat 8) (stringBody rest1)
            else if Nat.eqb m 116 then
              consChar (ascii_of_nat 9) (stringBody rest1)
            else if Nat.eqb m 110 then
              consChar (ascii_of_nat 10) (stringBody rest1)
            else if Nat.eqb m 102 then
              consChar (ascii_of_nat 12) (stringBody rest1)
            else if Nat.eqb m 114 then
              consChar (ascii_of_nat 13) (stringBody rest1)
            else if Nat.eqb m 117 then
              match rest1 with
              | String h1 (String h2 (String h3 (String h4 rest2))) =>
                  match hexValue h1, hexValue h2, hexValue h3, hexValue h4
                  with
                  | Some 0, Some 0, Some d3, Some d4 =>
                      consChar (ascii_of_nat (d3 * 16 + d4))
                               (stringBody rest2)
                  | _, _, _, _ => None
                  end
              | _ => None
              end
            else None
        end
      else if Nat.ltb n 32 then None
      else consChar c (stringBody rest)
  end.

Fixpoint value (fuel : nat) (s : string) : option (json * string) :=
  match fuel with
  | O => None
  | S fuel' =>
      match s with
      | EmptyString => None
      | String c rest =>
          if Nat.eqb (nat_of_ascii c) 34 then
            match stringBody rest with
            | Some (str, rest') => Some (JString str, rest')
            | None => None
            end
          else if Ascii.eqb c "[" then
            match rest with
            | EmptyString => None
            | String d rest' =>
                if Ascii.eqb d "]" then Some (JArray [], rest')
                else match items fuel' rest with
                     | Some (vs, r) => Some (JArray vs, r)
                     | None => None
                     end
            end
          else if Ascii.eqb c "{" then
            match rest with
            | EmptyString => None
            | String d rest' =>
                if Ascii.eqb d "}" then Some (JObject [], rest')
                else match fields fuel' rest with
                     | Some (kvs, r) => Some (JObject kvs, r)
                     | None => None
                     end
            end
          else None
      end
  end

(** The items of a non-empty array, up to the closing bracket. *)
with items (fuel : nat) (s : string) : option (list json * string) :=
  match fuel with
  | O => None
  | S fuel' =>
      match value fuel' s with
      | Some (v, String d rest) =>
          if Ascii.eqb d "," then
            match items fuel' rest with
            | Some (vs, r) => Some (v :: vs, r)
            | None => None
            end
          else if Ascii.eqb d "]" then Some ([v], rest)
          else None
      | _ => None
      end
  end

(** The members of a non-empty object, up to the closing brace. *)
with fields (fuel : nat) (s : string)
  : option (list (string * json) * string) :=
  match fuel with
  | O => None
  | S fuel' =>
      match s with
      | EmptyString => None
      | String q rest =>
          if Nat.eqb (nat_of_ascii q) 34 then
            match stringBody rest with
            | Some (k, String colon rest1) =>
                if Ascii.eqb colon ":" then
                  match value fuel' rest1 with
                  | Some (v, String d rest2) =>
                      if Ascii.eqb d "," then
                        match fields fuel' rest2 with
                        | Some (kvs, r) => Some ((k, v) :: kvs, r)
                        | None => None
                        end
                      else if Ascii.eqb d "}" then Some ([(k, v)], rest2)
                      else None
                  | _ => None
                  end
                else None
            | _ => None
            end
          else None
      end
  end.

(** A bound on the fuel a value needs. *)
Fixpoint size (v : json) : nat :=
  match v with
  | JString _ => 1
  | JArray vs => S (fold_right (fun v acc => S (size v + acc)) 0 vs)
  | JObject kvs =>
      S (fold_right (fun kv acc => S (size (snd kv) + acc)) 0 kvs)
  end.

End Decode.

(** The text of a member of an object, and the fuel the items of an array
    and the members of an object need. *)
Definition member (kv : string * json) : string :=
  JSON.quote (fst kv) ++ ":" ++ JSON.stringify (snd kv).

Definition sizes (vs : list json) : nat :=
  fold_right (fun v acc => S (Decode.size v + acc)) 0 vs.

Definition memberSizes (kvs : list (string * json)) : nat :=
  fold_right (fun kv acc => S (Decode.size (snd kv) + acc)) 0 kvs.

(* ------------------------------------------------------------------ *)
(** ** The route declaration                                            *)
(* ------------------------------------------------------------------ *)

(** URL parameters of the route [/aws/s3/:level/:bucket/:prefix], whose
    last parameter takes the rest of the path, and the [format]
    query-string option ([None] when it is not given). *)
Record Request : Type := {
  level : string;
  bucket : string;
  prefix : string;
  format : option string
}.

(** The object handed to [req.authorize]. *)
Record AuthorizeParams : Type := {
  authLevel : string;
  authBucket : string;
  authPrefix : string;
  levelIsReadOnly : bool
}.

(** Scope expression templates, as the [scopes] entry of the declaration
    writes them. *)
#[warnings="-register-all"]
Inductive ScopeTemplate : Type :=
| Scope (template : string)
| AnyOf (alternatives : list ScopeTemplate)
| IfThenElse (condition : string) (thenBranch elseBranch : ScopeTemplate).

Definition scopes : ScopeTemplate :=
  IfThenElse "levelIsReadOnly"
    (AnyOf [ Scope "auth:aws-s3:read-only:<bucket>/<prefix>";
             Scope "auth:aws-s3:read-write:<bucket>/<prefix>" ])
    (Scope "auth:aws-s3:read-write:<bucket>/<prefix>").

(** A scope expression without parameters, as the authorizer checks it
    against the scopes of the caller. *)
#[warnings="-register-all"]
Inductive ScopeExpression : Type :=
| Require (scope : string)
| RequireAnyOf (alternatives : list ScopeExpression).

Module Expression.

Definition stringParam (name : string) (p : AuthorizeParams) : option string :=
  if String.eqb name "level" then Some (authLevel p)
  else if String.eqb name "bucket" then Some (authBucket p)
  else if String.eqb name "prefix" then Some (authPrefix p)
  else None.

Definition boolParam (name : string) (p : AuthorizeParams) : option bool :=
  if String.eqb name "levelIsReadOnly" then Some (levelIsReadOnly p)
  else None.

(** Modelled from the spec: the expansion of the placeholders of a scope
    string, which the API library performs and this file does not contain.
    The spec has each scope string embed bucket and prefix verbatim: every
    [<name>] of the template is replaced by the parameter of that name and
    the inserted text is not scanned again.  [pending] holds the name read
    so far after an opening bracket. *)
Fixpoint expandString (p : AuthorizeParams) (pending : option string)
         (template : string) : option string :=
  match template with
  | EmptyString =>
      match pending with
      | None => Some EmptyString
      | Some name => Some (String "<" name)
      end
  | String c rest =>
      match pending with
      | None =>
          if Ascii.eqb c "<" then expandString p (Some EmptyString) rest
          else option_map (String c) (expandString p None rest)
      | Some name =>
          if Ascii.eqb c ">" then
            match stringParam name p, expandString p None rest with
            | Some v, Some r => Some (v ++ r)
            | _, _ => None
            end
          else expandString p (Some (name ++ String c EmptyString)) rest
      end
  end.

(** Modelled from the spec: the expansion of a scope expression template,
    which the API library performs and this file does not contain.  The
    spec derives the required expression from the request: the [then]
    branch when the named parameter is true, otherwise the [else] branch.
    [None] stands for a template that names a missing parameter. *)
Fixpoint expand (p : AuthorizeParams) (t : ScopeTemplate)
  : option ScopeExpression :=
  match t with
  | Scope s => option_map Require (expandString p None s)
  | AnyOf ts =>
      option_map RequireAnyOf
        (fold_right (fun t acc =>
                       match expand p t, acc with
                       | Some e, Some es => Some (e :: es)
                       | _, _ => None
                       end) (Some []) ts)
  | IfThenElse c t1 t2 =>
      match boolParam c p with
      | Some true => expand p t1
      | Some false => expand p t2
      | None => None
      end
  end.

End Expression.

(** The scope expression the authorizer checks for a call of
    [req.authorize]. *)
Definition requiredScopes (p : AuthorizeParams) : option ScopeExpression :=
  Expression.expand p scopes.

(* ------------------------------------------------------------------ *)
(** ** The policy document                                              *)
(* ------------------------------------------------------------------ *)

(** Actions allowed on S3 objects: [s3:GetObject], and the two writing
    actions pushed when the level is [read-write]. *)
Definition objectActions (level : string) : list string :=
  (["s3:GetObject"]
   ++ (if String.eqb level "read-write"
       then ["s3:PutObject"; "s3:DeleteObject"]
       else []))%list.

Definition objectResource (bucket prefix : string) : string :=
  JS.replace "{{prefix}}" prefix
    (JS.replace "{{bucket}}" bucket "arn:aws:s3:::{{bucket}}/{{prefix}}*").

Definition bucketResource (bucket : string) : string :=
  JS.replace "{{bucket}}" bucket "arn:aws:s3:::{{bucket}}".

Definition listPrefixCondition (prefix : string) : string :=
  JS.replace "{{prefix}}" prefix "{{prefix}}*".

Definition jstrings (l : list string) : json := JArray (map JString l).

(** The object given to [JSON.stringify] for the [Policy] field. *)
Definition policy (level bucket prefix : string) : json :=
  JObject [
    ("Version", JString "2012-10-17");
    ("Statement", JArray [
      JObject [
        ("Sid", JString "ReadWriteObjectsUnderPrefix");
        ("Effect", JString "Allow");
        ("Action", jstrings (objectActions level));
        ("Resource", jstrings [objectResource bucket prefix])
      ];
      JObject [
        ("Sid", JString "ListObjectsUnderPrefix");
        ("Effect", JString "Allow");
        ("Action", jstrings ["s3:ListBucket"]);
        ("Resource", jstrings [bucketResource bucket]);
        ("Condition", JObject [
          ("StringLike", JObject [
            ("s3:prefix", jstrings [listPrefixCondition prefix])
          ])
        ])
      ];
      JObject [
        ("Sid", JString "GetBucketLocation");
        ("Effect", JString "Allow");
        ("Action", jstrings ["s3:GetBucketLocation"]);
        ("Resource", jstrings [bucketResource bucket])
      ]
    ])
  ].

(** Accessors into a policy document. *)
Definition statement (i : nat) (doc : json) : option json :=
  match JSON.get "Statement" doc with
  | Some st => JSON.at_ i st
  | None => None
  end.

Definition statementField (i : nat) (field : string) (doc : json)
  : option (list string) :=
  match statement i doc with
  | Some st => option_map JSON.strings (JSON.get field st)
  | None => None
  end.

Definition statementSid (i : nat) (doc : json) : option json :=
  match statement i doc with
  | Some st => JSON.get "Sid" st
  | None => None
  end.

Definition listCondition (doc : json) : option (list string) :=
  match statement 1 doc with
  | Some st =>
      match JSON.get "Condition" st with
      | Some c =>
          match JSON.get "StringLike" c with
          | Some sl => option_map JSON.strings (JSON.get "s3:prefix" sl)
          | None => None
          end
      | None => None
      end
  | None => None
  end.

(** Every action named by some statement of a policy document. *)
Definition allActions (doc : json) : list string :=
  match JSON.get "Statement" doc with
  | Some (JArray sts) =>
      flat_map (fun st => match JSON.get "Action" st with
                          | Some a => JSON.strings a
                          | None => []
                          end) sts
  | _ => []
  end.

(* ------------------------------------------------------------------ *)
(** ** The request handler                                              *)
(* ------------------------------------------------------------------ *)

(** Parameters of [sts.getFederationToken]. *)
Record FederationTokenRequest : Type := {
  Name : string;
  Policy : string;
  DurationSeconds : Z
}.

Inductive Exception : Type :=
| AuthorizationError   (* thrown by [req.authorize] *)
| StsError.            (* the promise of [getFederationToken] rejects *)

(** How the handler ends. *)
Inductive Outcome : Type :=
| ReportError (kind message : string) (details : list (string * string))
| Rejected (e : Exception)
| StatusJson (status : Z) (body : json)
| Reply (body : json).

(** [level !== 'read-write' && level !== 'read-only']. *)
Definition levelRejected (level : string) : bool :=
  negb (String.eqb level "read-write") && negb (String.eqb level "read-only").

(** The two calls of [res.reportError]: kind, message template and the
    values for the placeholders of the message. *)
Definition levelError (level : string) : Outcome :=
  ReportError "InputError"
    "the 'level' URL parameter must be read-only or read-write; got {{levelGiven}}"
    [("levelGiven", level)].

Definition prefixError (prefix : string) : Outcome :=
  ReportError "InputError"
    "The `prefix` may not start with a slash `/`; got `{{prefix}}`"
    [("prefix", prefix)].

(** The argument of [req.authorize]. *)
Definition authorizeParams (req : Request) : AuthorizeParams :=
  {| authLevel := level req;
     authBucket := bucket req;
     authPrefix := prefix req;
     levelIsReadOnly := String.eqb (level req) "read-only" |}.

Section Handler.

(** JavaScript [Date] values and their [toJSON] rendering. *)
Variable Date : Type.
Variable toJSON : Date -> string.

(** [iamReq.Credentials]. *)
Record Credentials : Type := {
  AccessKeyId : string;
  SecretAccessKey : string;
  SessionToken : string;
  Expiration : Date
}.

(** What the handler calls: the authorizer behind [req.authorize] ([true]
    when it returns, [false] when it throws), the STS client ([None] when
    the call fails) and the clock read by [new Date()]. *)
Record Env : Type := {
  authorizer : AuthorizeParams -> bool;
  sts : FederationTokenRequest -> option Credentials;
  now : Date
}.

(** The external calls of a run, in the order they are made. *)
Inductive Event : Type :=
| CallAuthorize (p : AuthorizeParams)
| CallGetFederationToken (r : FederationTokenRequest).

(** A computation of the handler either goes on with a value or ends the
    request; it appends the calls it makes to the log. *)
Inductive Flow (A : Type) : Type :=
| Continue (a : A)
| Finish (o : Outcome).
Arguments Continue {A} a.
Arguments Finish {A} o.

Definition Action (A : Type) : Type :=
  Env -> list Event -> list Event * Flow A.

Definition bind {A B : Type} (m : Action A) (k : A -> Action B) : Action B :=
  fun env log =>
    match m env log with
    | (log', Continue a) => k a env log'
    | (log', Finish o) => (log', Finish o)
    end.

Definition finish {A : Type} (o : Outcome) : Action A :=
  fun _ log => (log, Finish o).

Definition authorize (p : AuthorizeParams) : Action unit :=
  fun env log =>
    ((log ++ [CallAuthorize p])%list,
     if authorizer env p then Continue tt
     else Finish (Rejected AuthorizationError)).

Definition getFederationToken (r : FederationTokenRequest)
  : Action Credentials :=
  fun env log =>
    ((log ++ [CallGetFederationToken r])%list,
     match sts env r with
     | Some c => Continue c
     | None => Finish (Rejected StsError)
     end).

Definition newDate : Action Date :=
  fun env log => (log, Continue (now env)).

Notation "x <- m ;; k" := (bind m (fun x => k))
  (at level 61, m at next level, right associativity).
Notation "m ;;; k" := (bind m (fun _ => k))
  (at level 61, right associativity).

Definition federationTokenRequest (level bucket prefix : string)
  : FederationTokenRequest :=
  {| Name := "TemporaryS3ReadWriteCredentials";
     Policy := JSON.stringify (policy level bucket prefix);
     DurationSeconds := 60 * 60 |}.

Definition iamRoleCompat (lastUpdated : Date) (c : Credentials) : json :=
  JObject [
    ("Code", JString "Success");
    ("Type", JString "AWS-HMAC");
    ("LastUpdated", JString (toJSON lastUpdated));
    ("AccessKeyId", JString (AccessKeyId c));
    ("SecretAccessKey", JString (SecretAccessKey c));
    ("Token", JString (SessionToken c));
    ("Expiration", JString (toJSON (Expiration c)))
  ].

Definition nativeReply (c : Credentials) : json :=
  JObject [
    ("credentials", JObject [
      ("accessKeyId", JString (AccessKeyId c));
      ("secretAccessKey", JString (SecretAccessKey c));
      ("sessionToken", JString (SessionToken c))
    ]);
    ("expires", JString (toJSON (Expiration c)))
  ].

(** [req.query.format === 'iam-role-compat']. *)
Definition formatIsCompat (f : option string) : bool :=
  match f with
  | Some v => String.eqb v "iam-role-compat"
  | None => false
  end.

(** The handler of the route. *)
Definition awsS3Credentials (req : Request) : Action unit :=
  let level := level req in
  let bucket := bucket req in
  let prefix := prefix req in
  if levelRejected level then
    finish (levelError level)
  else
    authorize (authorizeParams req) ;;;
    if JS.firstCharIs "/" prefix then
      finish (prefixError prefix)
    else
      iamReq <- getFederationToken
                  (federationTokenRequest level bucket prefix) ;;
      if formatIsCompat (format req) then
        lastUpdated <- newDate ;;
        finish (StatusJson 200 (iamRoleCompat lastUpdated iamReq))
      else
        finish (Reply (nativeReply iamReq)).

(** A run of the handler: the calls made and the way the request ends.
    The handler always ends the request itself; [None] is the case of a
    handler that returns without a response, which does not arise. *)
Definition run (env : Env) (req : Request) : list Event * option Outcome :=
  match awsS3Credentials req env [] with
  | (log, Finish o) => (log, Some o)
  | (log, Continue _) => (log, None)
  end.

Definition calls (env : Env) (req : Request) : list Event :=
  fst (run env req).

Definition outcome (env : Env) (req : Request) : option Outcome :=
  snd (run env req).

End Handler.

Arguments AccessKeyId {Date} c.
Arguments SecretAccessKey {Date} c.
Arguments SessionToken {Date} c.
Arguments Expiration {Date} c.
Arguments authorizer {Date} e.
Arguments sts {Date} e.
Arguments now {Date} e.
Arguments run {Date} toJSON env req.
Arguments calls {Date} toJSON env req.
Arguments outcome {Date} toJSON env req.
Arguments iamRoleCompat {Date} toJSON lastUpdated c.
Arguments nativeReply {Date} toJSON c.

(* ------------------------------------------------------------------ *)
(** ** Sample environment and requests                                  *)
(* ------------------------------------------------------------------ *)

Module Sample.

(** Dates as milliseconds since the epoch, rendered by a stand-in for
    [toJSON]. *)
Definition isoOf (d : Z) : string :=
  if Z.eqb d 0 then "2026-01-01T00:00:00.000Z" else "2026-01-01T01:00:00.000Z".

Definition credentials : Credentials Z :=
  {| AccessKeyId := "ASIAEXAMPLE";
     SecretAccessKey := "secret";
     SessionToken := "token";
     Expiration := 3600000%Z |}.

(** An environment whose authorizer answers [allowed] and whose STS
    always returns [credentials]. *)
Definition env (allowed : bool) : Env Z :=
  {| authorizer := fun _ => allowed;
     sts := fun _ => Some credentials;
     now := 0%Z |}.

Definition request (l b p : string) (f : option string) : Request :=
  {| level := l; bucket := b; prefix := p; format := f |}.

End Sample.

(* ------------------------------------------------------------------ *)
(** ** Notions used in the statements                                   *)
(* ------------------------------------------------------------------ *)

(** The body of a successful response: the 200 reply of [res.json] or the
    reply of [res.reply]. *)
Definition successBody (o : Outcome) : option json :=
  match o with
  | StatusJson status body => if Z.eqb status 200 then Some body else None
  | Reply body => Some body
  | ReportError _ _ _ | Rejected _ => None
  end.

(** The same request with another [format] option. *)
Definition withFormat (f : option string) (req : Request) : Request :=
  {| level := level req; bucket := bucket req; prefix := prefix req;
     format := f |}.

(** [noChar c s]: the character [c] does not occur in [s]. *)
Fixpoint noChar (c : ascii) (s : string) : bool :=
  match s with
  | EmptyString => true
  | String a s' => negb (Ascii.eqb a c) && noChar c s'
  end.

(** The [query] entry of the declaration, [format: /iam-role-compat/]: a
    regular expression of literal characters without anchors, so that
    [pattern.test(value)] holds exactly when [value] contains the text
    [iam-role-compat]. *)
Definition formatPattern : string := "iam-role-compat".

Definition matchesFormatPattern (value : string) : bool :=
  match JS.splitAtFirst formatPattern value with
  | Some _ => true
  | None => false
  end.

(** The answer of the API library to a query-string option that fails its
    declared pattern: the request is refused with a 400 error and the
    handler is not run. *)
Inductive Refusal : Type :=
| InvalidRequestArguments (name value : string).

(** The check of the query string against the [query] entry of the
    declaration, made by the API library before the handler runs.  The
    library is not part of this file; the check follows the declaration:
    the declared pattern is tested on the value given, a value that
    fails the test is refused, and any other reaches the handler as it
    is. *)
Definition validateQuery (given : option string) : Refusal + option string :=
  match given with
  | None => inr None
  | Some value =>
      if matchesFormatPattern value then inr (Some value)
      else inl (InvalidRequestArguments "format" value)
  end.

(** The endpoint as a caller sees it: the check of the query string, then
    the handler.  [format req] is the value given in the query string. *)
Definition endpoint {Date : Type} (toJSON : Date -> string) (env : Env Date)
           (req : Request) : Refusal + (list Event * option Outcome) :=
  match validateQuery (format req) with
  | inl refusal => inl refusal
  | inr f => inr (run toJSON env (withFormat f req))
  end.

(** Any format other than [iam-role-compat] counts as an absent one and
    causes no error. *)
Definition other_format_never_fails : Prop :=
  forall (Date : Type) (toJSON : Date -> string) (env : Env Date)
         (req : Request) (f : string),
    f <> "iam-role-compat" ->
    endpoint toJSON env (withFormat (Some f) req)
    = endpoint toJSON env (withFormat None req).


(** Validation as a whole before authorization: a request whose prefix
    starts with a slash ends in an [InputError] without any call of the
    authorizer, and the authorizer is only called for a request that
    passes both checks. *)
Definition validation_before_authorization : Prop :=
  forall (Date : Type) (toJSON : Date -> string) (env : Env Date)
         (req : Request),
    (JS.firstCharIs "/" (prefix req) = true ->
     (exists message details,
        outcome toJSON env req
        = Some (ReportError "InputError" message details))
     /\ (forall p, ~ In (CallAuthorize p) (calls toJSON env req)))
    /\ (forall p, In (CallAuthorize p) (calls toJSON env req) ->
                  levelRejected (level req) = false
                  /\ JS.firstCharIs "/" (prefix req) = false).

(* ------------------------------------------------------------------ *)
(** ** Properties of the string primitives                              *)
(* ------------------------------------------------------------------ *)

(** Names through which templating is transparent: no dollar sign, which
    [replace] interprets, and no opening brace, which could start a
    placeholder.  The names S3 accepts for a bucket (lower-case letters,
    digits, hyphens and dots) are all of this kind. *)
Definition plainName (s : string) : bool :=
  noChar "$" s && noChar "{" s.

Lemma append_assoc (a b c : string) : (a ++ b) ++ c = a ++ (b ++ c).
Proof.
  induction a as [|x a IH]; simpl; [reflexivity | now rewrite IH].
Qed.

Lemma append_empty_r (a : string) : a ++ EmptyString = a.
Proof.
  induction a as [|x a IH]; simpl; [reflexivity | now rewrite IH].
Qed.

Lemma noChar_app (c : ascii) (a b : string) :
  noChar c (a ++ b) = noChar c a && noChar c b.
Proof.
  induction a as [|x a IH]; simpl; [reflexivity|].
  rewrite IH. now rewrite andb_assoc.
Qed.

(** A replacement text without dollar signs is inserted as it is. *)
Lemma GetSubstitution_plain (matched before after template : string) :
  noChar "$" template = true ->
  JS.GetSubstitution matched before after template = template.
Proof.
  induction template as [|c rest IH]; simpl; [reflexivity|].
  intros H. apply andb_prop in H. destruct H as [Hc Hrest].
  apply negb_true_iff in Hc. rewrite Hc.
  now rewrite (IH Hrest).
Qed.

(** The search for a pattern skips a text that lacks the first character
    of the pattern. *)
Lemma splitAtFirst_skip (c0 : ascii) (pat' s rest : string) :
  noChar c0 s = true ->
  JS.splitAtFirst (String c0 pat') (s ++ rest) =
  match JS.splitAtFirst (String c0 pat') rest with
  | Some (before, after) => Some (s ++ before, after)
  | None => None
  end.
Proof.
  induction s as [|a s IH]; intros H.
  - simpl append. destruct (JS.splitAtFirst (String c0 pat') rest) as [[b t]|];
      reflexivity.
  - simpl in H. apply andb_prop in H. destruct H as [Ha Hs].
    apply negb_true_iff in Ha.
    change (String a s ++ rest) with (String a (s ++ rest)).
    cbn [JS.splitAtFirst JS.startsWith].
    rewrite Ascii.eqb_sym, Ha. cbn [andb].
    rewrite (IH Hs).
    destruct (JS.splitAtFirst (String c0 pat') rest) as [[b t]|]; reflexivity.
Qed.

Lemma replace_found (pat replacement s before after : string) :
  JS.splitAtFirst pat s = Some (before, after) ->
  JS.replace pat replacement s =
  before ++ JS.GetSubstitution pat before after replacement ++ after.
Proof.
  intros H. unfold JS.replace. now rewrite H.
Qed.

(** The resource of the list and location statements, for a bucket name
    without dollar signs. *)
Lemma bucketResource_plain (b : string) :
  noChar "$" b = true ->
  bucketResource b = "arn:aws:s3:::" ++ b.
Proof.
  intros H. unfold bucketResource.
  rewrite (replace_found _ _ _ "arn:aws:s3:::" EmptyString) by reflexivity.
  rewrite (GetSubstitution_plain _ _ _ _ H).
  now rewrite append_empty_r.
Qed.



(* ------------------------------------------------------------------ *)
(** ** Runs of the handler                                              *)
(* ------------------------------------------------------------------ *)

Lemma levelRejected_false (l : string) :
  levelRejected l = false <-> l = "read-only" \/ l = "read-write".
Proof.
  unfold levelRejected. split.
  - intros H. apply andb_false_iff in H.
    destruct H as [H|H]; apply negb_false_iff, String.eqb_eq in H; auto.
  - intros [H|H]; subst; reflexivity.
Qed.

Lemma levelRejected_true (l : string) :
  levelRejected l = true <-> l <> "read-only" /\ l <> "read-write".
Proof.
  unfold levelRejected. rewrite andb_true_iff, !negb_true_iff, !String.eqb_neq.
  tauto.
Qed.

Lemma strings_jstrings (l : list string) : JSON.strings (jstrings l) = l.
Proof.
  unfold jstrings, JSON.strings.
  induction l as [|x l IH]; simpl; [reflexivity | now rewrite IH].
Qed.

Lemma allActions_policy (l b p : string) :
  allActions (policy l b p)
  = (objectActions l ++ ["s3:ListBucket"; "s3:GetBucketLocation"])%list.
Proof.
  unfold allActions, policy.
  cbn [JSON.get JSON.lookup String.eqb Ascii.eqb Bool.eqb flat_map].
  rewrite !strings_jstrings. now rewrite app_nil_r.
Qed.

Section Runs.

Variable Date : Type.
Variable toJSON : Date -> string.

Implicit Types (env : Env Date) (req : Request).

(** The four ways a request goes through the handler. *)
Lemma run_cases env req :
  run toJSON env req =
  let p := authorizeParams req in
  let r := federationTokenRequest (level req) (bucket req) (prefix req) in
  if levelRejected (level req) then ([], Some (levelError (level req)))
  else if authorizer env p then
    if JS.firstCharIs "/" (prefix req)
    then ([CallAuthorize p], Some (prefixError (prefix req)))
    else match sts env r with
         | Some c =>
             ([CallAuthorize p; CallGetFederationToken r],
              Some (if formatIsCompat (format req)
                    then StatusJson 200 (iamRoleCompat toJSON (now env) c)
                    else Reply (nativeReply toJSON c)))
         | None =>
             ([CallAuthorize p; CallGetFederationToken r],
              Some (Rejected StsError))
         end
  else ([CallAuthorize p], Some (Rejected AuthorizationError)).
Proof.
  unfold run, awsS3Credentials, bind, authorize, getFederationToken,
    newDate, finish.
  cbv zeta.
  destruct (levelRejected (level req)); [reflexivity|].
  cbn [app].
  destruct (authorizer env (authorizeParams req)); [|reflexivity].
  destruct (JS.firstCharIs "/" (prefix req)); [reflexivity|].
  cbn [app].
  destruct (sts env _) as [c|]; [|reflexivity].
  destruct (formatIsCompat (format req)); reflexivity.
Qed.

(** The handler always ends the request. *)
Lemma run_ends env req : exists o, outcome toJSON env req = Some o.
Proof.
  unfold outcome. rewrite run_cases. cbv zeta.
  destruct (levelRejected _); [eexists; reflexivity|].
  destruct (authorizer _ _); [|eexists; reflexivity].
  destruct (JS.firstCharIs _ _); [eexists; reflexivity|].
  destruct (sts _ _); eexists; reflexivity.
Qed.

(** A call of the authorizer is made with the parameters of the request,
    and only for a level that passed the check. *)
Lemma calls_authorize env req p :
  In (CallAuthorize p) (calls toJSON env req) ->
  p = authorizeParams req /\ levelRejected (level req) = false.
Proof.
  unfold calls. rewrite run_cases. cbv zeta.
  destruct (levelRejected _); [intros []|].
  destruct (authorizer _ _);
    [destruct (JS.firstCharIs _ _); [|destruct (sts _ _)]|];
    cbn [fst In]; intros H;
    repeat (destruct H as [H|H]; try discriminate H; try contradiction);
    inversion H; auto.
Qed.

(** A call of STS is made with [federationTokenRequest], after the level
    check, a successful authorization and the prefix check. *)
Lemma calls_sts env req r :
  In (CallGetFederationToken r) (calls toJSON env req) ->
  r = federationTokenRequest (level req) (bucket req) (prefix req)
  /\ levelRejected (level req) = false
  /\ authorizer env (authorizeParams req) = true
  /\ JS.firstCharIs "/" (prefix req) = false.
Proof.
  unfold calls. rewrite run_cases. cbv zeta.
  destruct (levelRejected _); [intros []|].
  destruct (authorizer _ _);
    [destruct (JS.firstCharIs _ _); [|destruct (sts _ _)]|];
    cbn [fst In]; intros H;
    repeat (destruct H as [H|H]; try discriminate H; try contradiction);
    inversion H; auto.
Qed.

(** A request with a valid level and a prefix that does not start with a
    slash reaches STS once the authorizer accepts it. *)
Lemma valid_authorized_reaches_sts env req :
  levelRejected (level req) = false ->
  authorizer env (authorizeParams req) = true ->
  JS.firstCharIs "/" (prefix req) = false ->
  calls toJSON env req
  = [CallAuthorize (authorizeParams req);
     CallGetFederationToken
       (federationTokenRequest (level req) (bucket req) (prefix req))].
Proof.
  intros Hl Ha Hs. unfold calls. rewrite run_cases. cbv zeta.
  rewrite Hl, Ha, Hs. destruct (sts _ _); reflexivity.
Qed.

End Runs.

(* ------------------------------------------------------------------ *)
(** ** The policy handed to STS                                         *)
(* ------------------------------------------------------------------ *)

(** C1. Whenever the handler calls STS, the policy it submits is the
    serialized document whose first statement, the object statement
    [ReadWriteObjectsUnderPrefix], allows exactly [s3:GetObject] for the
    level [read-only] and exactly [s3:GetObject], [s3:PutObject] and
    [s3:DeleteObject] for the level [read-write].  For every input, each
    action of the document is one of the five the handler names, and
    [s3:PutObjectAcl] is not among them. *)
Theorem object_actions_by_level
  (Date : Type) (toJSON : Date -> string) (env : Env Date) (req : Request)
  (r : FederationTokenRequest) :
  In (CallGetFederationToken r) (calls toJSON env req) ->
  let doc := policy (level req) (bucket req) (prefix req) in
  Policy r = JSON.stringify doc
  /\ statementSid 0 doc = Some (JString "ReadWriteObjectsUnderPrefix")
  /\ (level req = "read-only" \/ level req = "read-write")
  /\ (level req = "read-only" ->
      statementField 0 "Action" doc = Some ["s3:GetObject"])
  /\ (level req = "read-write" ->
      statementField 0 "Action" doc
      = Some ["s3:GetObject"; "s3:PutObject"; "s3:DeleteObject"])
  /\ (forall l b p a,
        In a (allActions (policy l b p)) ->
        In a ["s3:GetObject"; "s3:PutObject"; "s3:DeleteObject";
              "s3:ListBucket"; "s3:GetBucketLocation"]
        /\ a <> "s3:PutObjectAcl").
Proof.
  intros H doc.
  destruct (calls_sts _ _ _ _ _ H) as (Hr & Hlevel & _ & _).
  apply levelRejected_false in Hlevel.
  split; [now rewrite Hr|].
  split; [reflexivity|].
  split; [exact Hlevel|].
  split; [intros E; unfold doc; now rewrite E|].
  split; [intros E; unfold doc; now rewrite E|].
  intros l b p a Ha.
  rewrite allActions_policy in Ha. unfold objectActions in Ha.
  destruct (String.eqb l "read-write"); cbn [app In] in Ha.
  - split; [cbn [In]; tauto|].
    intros ->.
    repeat (destruct Ha as [Ha|Ha]; try discriminate Ha). contradiction.
  - split; [cbn [In]; tauto|].
    intros ->.
    repeat (destruct Ha as [Ha|Ha]; try discriminate Ha). contradiction.
Qed.

Lemma object_actions_by_level_witness :
  In (CallGetFederationToken
        (federationTokenRequest "read-write" "mybucket" "team/"))
     (calls Sample.isoOf (Sample.env true)
        (Sample.request "read-write" "mybucket" "team/" None))
  /\ statementField 0 "Action" (policy "read-write" "mybucket" "team/")
     = Some ["s3:GetObject"; "s3:PutObject"; "s3:DeleteObject"].
Proof.
  assert (H : In (CallGetFederationToken
                    (federationTokenRequest "read-write" "mybucket" "team/"))
                 (calls Sample.isoOf (Sample.env true)
                    (Sample.request "read-write" "mybucket" "team/" None))).
  { vm_compute. right. left. reflexivity. }
  split; [exact H|].
  exact (proj1 (proj2 (proj2 (proj2 (proj2
    (object_actions_by_level Z Sample.isoOf (Sample.env true)
       (Sample.request "read-write" "mybucket" "team/" None)
       (federationTokenRequest "read-write" "mybucket" "team/") H)))))
    eq_refl).
Defined.

(** C8. Whenever the handler calls STS, the duration it asks for is 3600
    seconds, whatever the request. *)
Theorem duration_is_one_hour
  (Date : Type) (toJSON : Date -> string) (env : Env Date) (req : Request)
  (r : FederationTokenRequest) :
  In (CallGetFederationToken r) (calls toJSON env req) ->
  DurationSeconds r = 3600%Z.
Proof.
  intros H. destruct (calls_sts _ _ _ _ _ H) as (-> & _). reflexivity.
Qed.

Lemma duration_is_one_hour_witness :
  In (CallGetFederationToken
        (federationTokenRequest "read-only" "mybucket" "team/"))
     (calls Sample.isoOf (Sample.env true)
        (Sample.request "read-only" "mybucket" "team/" None))
  /\ DurationSeconds (federationTokenRequest "read-only" "mybucket" "team/")
     = 3600%Z.
Proof.
  assert (H : In (CallGetFederationToken
                    (federationTokenRequest "read-only" "mybucket" "team/"))
                 (calls Sample.isoOf (Sample.env true)
                    (Sample.request "read-only" "mybucket" "team/" None))).
  { vm_compute. right. left. reflexivity. }
  split; [exact H|].
  exact (duration_is_one_hour Z Sample.isoOf (Sample.env true)
           (Sample.request "read-only" "mybucket" "team/" None) _ H).
Defined.

(* ------------------------------------------------------------------ *)
(** ** Validation and authorization                                     *)
(* ------------------------------------------------------------------ *)

(** C7. A level other than [read-only] and [read-write] ends the request
    with an [InputError] whose details carry the level given; no call is
    made: neither the authorizer nor STS (for which alone a policy is
    built) is reached. *)
Theorem bad_level_rejected_first
  (Date : Type) (toJSON : Date -> string) (env : Env Date) (req : Request) :
  level req <> "read-only" ->
  level req <> "read-write" ->
  run toJSON env req
  = ([], Some (ReportError "InputError"
         "the 'level' URL parameter must be read-only or read-write; got {{levelGiven}}"
         [("levelGiven", level req)])).
Proof.
  intros H1 H2. rewrite run_cases. cbv zeta.
  now rewrite (proj2 (levelRejected_true (level req)) (conj H1 H2)).
Qed.

Lemma bad_level_rejected_first_witness :
  run Sample.isoOf (Sample.env true)
      (Sample.request "delete" "mybucket" "team/" None)
  = ([], Some (ReportError "InputError"
         "the 'level' URL parameter must be read-only or read-write; got {{levelGiven}}"
         [("levelGiven", "delete")])).
Proof.
  apply (bad_level_rejected_first Z Sample.isoOf (Sample.env true)
           (Sample.request "delete" "mybucket" "team/" None));
    vm_compute; discriminate.
Defined.

(** C3, as the claim states it, fails.  For the level [read-only] and the
    prefix [/secrets] the authorizer is called before the prefix is looked
    at: an accepting authorizer has been consulted when the [InputError]
    is reported, and a refusing one ends the request with its own error
    instead. *)
Lemma validation_before_authorization_fails :
  let req := Sample.request "read-only" "mybucket" "/secrets" None in
  JS.firstCharIs "/" (prefix req) = true
  /\ run Sample.isoOf (Sample.env true) req
     = ([CallAuthorize (authorizeParams req)],
        Some (prefixError "/secrets"))
  /\ run Sample.isoOf (Sample.env false) req
     = ([CallAuthorize (authorizeParams req)],
        Some (Rejected AuthorizationError))
  /\ ~ validation_before_authorization.
Proof.
  cbv zeta. split; [reflexivity|]. split; [reflexivity|].
  split; [reflexivity|].
  intros H.
  destruct (H Z Sample.isoOf (Sample.env true)
              (Sample.request "read-only" "mybucket" "/secrets" None))
    as [Hslash _].
  destruct (Hslash eq_refl) as [_ Hnone].
  apply (Hnone (authorizeParams
                  (Sample.request "read-only" "mybucket" "/secrets" None))).
  vm_compute. left. reflexivity.
Qed.

(** C3, amended.  For a valid level and a prefix that starts with a
    slash, the authorizer is called exactly once, after the level check
    and before the prefix check; the request then ends with the
    [InputError] on the prefix when the authorizer accepts and with the
    error of the authorizer when it refuses, and STS is not called.  For
    every request, the calls are none, the authorizer alone, or the
    authorizer followed by STS; the authorizer is called only once the
    level has passed its check, and STS only after the authorizer has
    accepted and the prefix has passed its check. *)
Theorem authorization_after_level_check
  (Date : Type) (toJSON : Date -> string) (env : Env Date) (req : Request) :
  let p := authorizeParams req in
  let r := federationTokenRequest (level req) (bucket req) (prefix req) in
  ((level req = "read-only" \/ level req = "read-write") ->
   JS.firstCharIs "/" (prefix req) = true ->
   calls toJSON env req = [CallAuthorize p]
   /\ outcome toJSON env req
      = Some (if authorizer env p
              then ReportError "InputError"
                     "The `prefix` may not start with a slash `/`; got `{{prefix}}`"
                     [("prefix", prefix req)]
              else Rejected AuthorizationError))
  /\ (calls toJSON env req = []
      \/ calls toJSON env req = [CallAuthorize p]
      \/ calls toJSON env req = [CallAuthorize p; CallGetFederationToken r])
  /\ (calls toJSON env req <> [] ->
      level req = "read-only" \/ level req = "read-write")
  /\ (In (CallGetFederationToken r) (calls toJSON env req) ->
      authorizer env p = true /\ JS.firstCharIs "/" (prefix req) = false).
Proof.
  intros p r. split; [|split; [|split]].
  - intros Hlevel Hslash. apply levelRejected_false in Hlevel.
    unfold calls, outcome. rewrite run_cases. cbv zeta.
    rewrite Hlevel, Hslash. fold p.
    destruct (authorizer env p); split; reflexivity.
  - unfold calls. rewrite run_cases. cbv zeta. fold p. fold r.
    destruct (levelRejected _); [auto|].
    destruct (authorizer env p); [|auto].
    destruct (JS.firstCharIs _ _); [auto|].
    destruct (sts env r); auto.
  - intros Hcalls. apply levelRejected_false.
    destruct (levelRejected (level req)) eqn:E; [|reflexivity].
    exfalso. apply Hcalls. unfold calls. rewrite run_cases. cbv zeta.
    now rewrite E.
  - intros H. destruct (calls_sts _ _ _ _ _ H) as (_ & _ & Ha & Hs). auto.
Qed.

Lemma authorization_after_level_check_witness :
  calls Sample.isoOf (Sample.env false)
        (Sample.request "read-write" "mybucket" "/secrets" None)
  = [CallAuthorize
       {| authLevel := "read-write"; authBucket := "mybucket";
          authPrefix := "/secrets"; levelIsReadOnly := false |}]
  /\ outcome Sample.isoOf (Sample.env false)
             (Sample.request "read-write" "mybucket" "/secrets" None)
     = Some (Rejected AuthorizationError).
Proof.
  exact (proj1 (authorization_after_level_check Z Sample.isoOf
                  (Sample.env false)
                  (Sample.request "read-write" "mybucket" "/secrets" None))
               (or_intror eq_refl) eq_refl).
Defined.

(** C4. The scope expression checked for the call of the authorizer is,
    for the level [read-only], the alternative of the read-only and the
    read-write scope of the bucket and prefix, and for the level
    [read-write] the read-write scope alone; each scope holds the bucket
    and the prefix as they were given. *)
Theorem required_scopes_by_level
  (Date : Type) (toJSON : Date -> string) (env : Env Date) (req : Request)
  (p : AuthorizeParams) :
  In (CallAuthorize p) (calls toJSON env req) ->
  (level req = "read-only" \/ level req = "read-write")
  /\ (level req = "read-only" ->
      requiredScopes p
      = Some (RequireAnyOf
                [Require ("auth:aws-s3:read-only:"
                          ++ bucket req ++ "/" ++ prefix req);
                 Require ("auth:aws-s3:read-write:"
                          ++ bucket req ++ "/" ++ prefix req)]))
  /\ (level req = "read-write" ->
      requiredScopes p
      = Some (Require ("auth:aws-s3:read-write:"
                       ++ bucket req ++ "/" ++ prefix req))).
Proof.
  intros H. destruct (calls_authorize _ _ _ _ _ H) as (-> & Hlevel).
  apply levelRejected_false in Hlevel.
  split; [exact Hlevel|].
  unfold requiredScopes, authorizeParams.
  split; intros E; rewrite E; cbn; rewrite !append_empty_r; reflexivity.
Qed.

Lemma required_scopes_by_level_witness :
  In (CallAuthorize
        (authorizeParams (Sample.request "read-only" "mybucket" "team/" None)))
     (calls Sample.isoOf (Sample.env true)
        (Sample.request "read-only" "mybucket" "team/" None))
  /\ requiredScopes
       (authorizeParams (Sample.request "read-only" "mybucket" "team/" None))
     = Some (RequireAnyOf
               [Require "auth:aws-s3:read-only:mybucket/team/";
                Require "auth:aws-s3:read-write:mybucket/team/"]).
Proof.
  assert (H : In (CallAuthorize
                    (authorizeParams
                       (Sample.request "read-only" "mybucket" "team/" None)))
                 (calls Sample.isoOf (Sample.env true)
                    (Sample.request "read-only" "mybucket" "team/" None))).
  { vm_compute. left. reflexivity. }
  split; [exact H|].
  exact (proj1 (proj2
           (required_scopes_by_level Z Sample.isoOf (Sample.env true)
              (Sample.request "read-only" "mybucket" "team/" None) _ H))
           eq_refl).
Defined.

(* ------------------------------------------------------------------ *)
(** ** The response                                                     *)
(* ------------------------------------------------------------------ *)

(** C5. A successful response to a request with [format=iam-role-compat]
    is the object with the keys [Code], [Type], [LastUpdated],
    [AccessKeyId], [SecretAccessKey], [Token] and [Expiration], where
    [Code] is [Success] and [Type] is [AWS-HMAC], and has no key
    [credentials] or [expires].  A successful response to any other
    request is the object with the keys [credentials] (an object with
    [accessKeyId], [secretAccessKey] and [sessionToken]) and [expires],
    and has no key [Code] or [Type]. *)
Theorem response_shape
  (Date : Type) (toJSON : Date -> string) (env : Env Date) (req : Request)
  (o : Outcome) (body : json) :
  outcome toJSON env req = Some o ->
  successBody o = Some body ->
  (format req = Some "iam-role-compat" ->
   JSON.keys body
   = ["Code"; "Type"; "LastUpdated"; "AccessKeyId"; "SecretAccessKey";
      "Token"; "Expiration"]
   /\ JSON.get "Code" body = Some (JString "Success")
   /\ JSON.get "Type" body = Some (JString "AWS-HMAC")
   /\ JSON.get "credentials" body = None
   /\ JSON.get "expires" body = None)
  /\ (format req <> Some "iam-role-compat" ->
      JSON.keys body = ["credentials"; "expires"]
      /\ option_map JSON.keys (JSON.get "credentials" body)
         = Some ["accessKeyId"; "secretAccessKey"; "sessionToken"]
      /\ JSON.get "Code" body = None
      /\ JSON.get "Type" body = None).
Proof.
  unfold outcome. rewrite run_cases. cbv zeta.
  destruct (levelRejected _); [intros [= <-]; discriminate|].
  destruct (authorizer _ _); [|intros [= <-]; discriminate].
  destruct (JS.firstCharIs _ _); [intros [= <-]; discriminate|].
  destruct (sts _ _) as [c|]; [|intros [= <-]; discriminate].
  cbn [snd]. intros [= <-].
  destruct (format req) as [f|] eqn:Ef; cbn [formatIsCompat].
  - destruct (String.eqb f "iam-role-compat") eqn:E.
    + cbn [successBody Z.eqb Pos.eqb]. intros [= <-].
      split; [intros _; repeat split|].
      intros Hne. apply String.eqb_eq in E. subst f. contradiction.
    + cbn [successBody]. intros [= <-].
      split; [|intros _; repeat split].
      intros [= Hf]. subst f. discriminate E.
  - cbn [successBody]. intros [= <-].
    split; [discriminate|intros _; repeat split].
Qed.

Lemma response_shape_witness :
  JSON.keys (iamRoleCompat Sample.isoOf 0%Z Sample.credentials)
  = ["Code"; "Type"; "LastUpdated"; "AccessKeyId"; "SecretAccessKey";
     "Token"; "Expiration"]
  /\ JSON.keys (nativeReply Sample.isoOf Sample.credentials)
     = ["credentials"; "expires"].
Proof.
  split.
  - exact (proj1 (proj1
      (response_shape Z Sample.isoOf (Sample.env true)
         (Sample.request "read-only" "mybucket" "team/"
            (Some "iam-role-compat"))
         (StatusJson 200 (iamRoleCompat Sample.isoOf 0%Z Sample.credentials))
         (iamRoleCompat Sample.isoOf 0%Z Sample.credentials)
         eq_refl eq_refl) eq_refl)).
  - refine (proj1 (proj2
      (response_shape Z Sample.isoOf (Sample.env true)
         (Sample.request "read-only" "mybucket" "team/" None)
         (Reply (nativeReply Sample.isoOf Sample.credentials))
         (nativeReply Sample.isoOf Sample.credentials)
         eq_refl eq_refl) _)).
    discriminate.
Defined.

(** C6, as the claim states it, fails.  The value [json] does not match
    the declared pattern of [format]: the request is refused before the
    handler runs, whereas the same request without the option is
    answered. *)
Lemma other_format_never_fails_fails :
  let req := Sample.request "read-only" "mybucket" "team/" (Some "json") in
  endpoint Sample.isoOf (Sample.env true) req
  = inl (InvalidRequestArguments "format" "json")
  /\ endpoint Sample.isoOf (Sample.env true) (withFormat None req)
     = inr (run Sample.isoOf (Sample.env true)
              (Sample.request "read-only" "mybucket" "team/" None))
  /\ ~ other_format_never_fails.
Proof.
  cbv zeta. split; [reflexivity|]. split; [reflexivity|].
  intros H.
  specialize (H Z Sample.isoOf (Sample.env true)
                (Sample.request "read-only" "mybucket" "team/" None) "json").
  assert (Hne : "json" <> "iam-role-compat") by discriminate.
  specialize (H Hne). discriminate H.
Qed.

(** C6, amended.  A [format] other than [iam-role-compat] that does not
    match the declared pattern is refused before the handler runs.  One
    that matches the pattern is treated as an absent one: the request
    ends as the same request without the option.  The handler itself
    never fails because of the value: its run is the run without the
    option, and a successful response is the native reply. *)
Theorem other_format_refused_or_ignored
  (Date : Type) (toJSON : Date -> string) (env : Env Date) (req : Request)
  (f : string) :
  f <> "iam-role-compat" ->
  (matchesFormatPattern f = false ->
   endpoint toJSON env (withFormat (Some f) req)
   = inl (InvalidRequestArguments "format" f))
  /\ (matchesFormatPattern f = true ->
      endpoint toJSON env (withFormat (Some f) req)
      = endpoint toJSON env (withFormat None req))
  /\ run toJSON env (withFormat (Some f) req)
     = run toJSON env (withFormat None req)
  /\ (forall o body,
        outcome toJSON env (withFormat (Some f) req) = Some o ->
        successBody o = Some body ->
        o = Reply body
        /\ exists c,
             sts env (federationTokenRequest (level req) (bucket req)
                        (prefix req)) = Some c
             /\ body = nativeReply toJSON c).
Proof.
  intros Hf. apply String.eqb_neq in Hf.
  assert (Hrun : run toJSON env (withFormat (Some f) req)
                 = run toJSON env (withFormat None req)).
  { rewrite !run_cases. cbv zeta.
    cbn [withFormat level bucket prefix format formatIsCompat].
    rewrite Hf. reflexivity. }
  split; [|split; [|split]].
  - intros Hm. unfold endpoint.
    cbn [withFormat format validateQuery]. now rewrite Hm.
  - intros Hm. unfold endpoint.
    cbn [withFormat format validateQuery level bucket prefix]. rewrite Hm.
    f_equal. exact Hrun.
  - exact Hrun.
  - intros o body. unfold outcome. rewrite run_cases. cbv zeta.
    cbn [withFormat level bucket prefix format formatIsCompat].
    rewrite Hf.
    change (authorizeParams (withFormat (Some f) req))
      with (authorizeParams req).
    destruct (levelRejected _); [intros [= <-]; discriminate|].
    destruct (authorizer _ _); [|intros [= <-]; discriminate].
    destruct (JS.firstCharIs _ _); [intros [= <-]; discriminate|].
    destruct (sts _ _) as [c|]; [|intros [= <-]; discriminate].
    cbn [snd]. intros [= <-]. cbn [successBody]. intros [= <-].
    split; [reflexivity|]. exists c. split; reflexivity.
Qed.

Lemma other_format_refused_or_ignored_witness :
  endpoint Sample.isoOf (Sample.env true)
    (withFormat (Some "json")
       (Sample.request "read-only" "mybucket" "team/" None))
  = inl (InvalidRequestArguments "format" "json")
  /\ endpoint Sample.isoOf (Sample.env true)
       (withFormat (Some "iam-role-compat-v2")
          (Sample.request "read-only" "mybucket" "team/" None))
     = endpoint Sample.isoOf (Sample.env true)
         (withFormat None
            (Sample.request "read-only" "mybucket" "team/" None)).
Proof.
  split.
  - refine (proj1 (other_format_refused_or_ignored Z Sample.isoOf
                     (Sample.env true)
                     (Sample.request "read-only" "mybucket" "team/" None)
                     "json" _) eq_refl).
    discriminate.
  - refine (proj1 (proj2 (other_format_refused_or_ignored Z Sample.isoOf
                     (Sample.env true)
                     (Sample.request "read-only" "mybucket" "team/" None)
                     "iam-role-compat-v2" _)) eq_refl).
    discriminate.
Defined.

(* ------------------------------------------------------------------ *)
(** ** Bucket and prefix in the policy                                  *)
(* ------------------------------------------------------------------ *)

(** C2, at the prefix [$'].  The authorizer is asked about the prefix as
    given, but [replace] reads [$'] in the replacement text as the text
    after the placeholder: the object resource and the list condition of
    the policy handed to STS end in two wildcards and do not hold the
    prefix.  A bucket [$&] likewise leaves the placeholder in the resource
    of the list statement. *)
Theorem dollar_prefix_not_verbatim :
  let req := Sample.request "read-only" "mybucket" "$'" None in
  let doc := policy "read-only" "mybucket" "$'" in
  calls Sample.isoOf (Sample.env true) req
  = [CallAuthorize
       {| authLevel := "read-only"; authBucket := "mybucket";
          authPrefix := "$'"; levelIsReadOnly := true |};
     CallGetFederationToken
       {| Name := "TemporaryS3ReadWriteCredentials";
          Policy := JSON.stringify doc;
          DurationSeconds := 3600 |}]
  /\ statementField 0 "Resource" doc = Some ["arn:aws:s3:::mybucket/**"]
  /\ objectResource "mybucket" "$'"
     <> "arn:aws:s3:::" ++ "mybucket" ++ "/" ++ "$'" ++ "*"
  /\ listCondition doc = Some ["**"]
  /\ listPrefixCondition "$'" <> "$'" ++ "*"
  /\ statementField 1 "Resource" (policy "read-only" "$&" "logs/")
     = Some ["arn:aws:s3:::{{bucket}}"]
  /\ bucketResource "$&" <> "arn:aws:s3:::" ++ "$&".
Proof.
  cbv zeta. repeat split; try reflexivity; vm_compute; discriminate.
Qed.







(* ------------------------------------------------------------------ *)
(** ** How a request ends                                               *)
(* ------------------------------------------------------------------ *)

(** Case analysis on a run: the level check, the answer of the
    authorizer, the prefix check and the answer of STS. *)
Ltac run_analysis env req :=
  unfold outcome, calls; rewrite run_cases; cbv zeta;
  let Hl := fresh "Hlevel" in
  let Ha := fresh "Hauth" in
  let Hs := fresh "Hslash" in
  let Ht := fresh "Hsts" in
  destruct (levelRejected (level req)) eqn:Hl;
  [ apply levelRejected_true in Hl
  | apply levelRejected_false in Hl;
    destruct (authorizer env (authorizeParams req)) eqn:Ha;
    [ destruct (JS.firstCharIs "/" (prefix req)) eqn:Hs;
      [ | destruct (sts env (federationTokenRequest (level req) (bucket req)
                               (prefix req))) eqn:Ht ]
    | ] ];
  cbn [fst snd].

(** X1. A request ends with the error of the authorizer exactly when its
    level is valid and the authorizer refuses it: the level check comes
    first, and a refusal is reported whatever the prefix is. *)
Theorem authorization_error_iff
  (Date : Type) (toJSON : Date -> string) (env : Env Date) (req : Request) :
  outcome toJSON env req = Some (Rejected AuthorizationError)
  <-> (level req = "read-only" \/ level req = "read-write")
      /\ authorizer env (authorizeParams req) = false.
Proof.
  run_analysis env req.
  - split; [discriminate|]. intros [[E|E] _]; tauto.
  - split; [discriminate|]. intros [_ E]; discriminate E.
  - split; [destruct (formatIsCompat _); discriminate|].
    intros [_ E]; discriminate E.
  - split; [discriminate|]. intros [_ E]; discriminate E.
  - split; auto.
Qed.

Lemma authorization_error_iff_witness :
  outcome Sample.isoOf (Sample.env false)
          (Sample.request "read-only" "mybucket" "team/" None)
  = Some (Rejected AuthorizationError).
Proof.
  apply (proj2 (authorization_error_iff Z Sample.isoOf (Sample.env false)
                  (Sample.request "read-only" "mybucket" "team/" None))).
  split; [left; reflexivity | reflexivity].
Defined.

(** X2. A request ends with the failure of the exchange exactly when it
    passed the level check, the authorizer and the prefix check, and STS
    gave no credentials for its policy; the failure is not turned into a
    response. *)
Theorem exchange_error_iff
  (Date : Type) (toJSON : Date -> string) (env : Env Date) (req : Request) :
  outcome toJSON env req = Some (Rejected StsError)
  <-> (level req = "read-only" \/ level req = "read-write")
      /\ authorizer env (authorizeParams req) = true
      /\ JS.firstCharIs "/" (prefix req) = false
      /\ sts env (federationTokenRequest (level req) (bucket req)
                    (prefix req)) = None.
Proof.
  run_analysis env req.
  - split; [discriminate|]. intros [[E|E] _]; tauto.
  - split; [discriminate|]. intros (_ & _ & E & _); discriminate E.
  - split; [destruct (formatIsCompat _); discriminate|].
    intros (_ & _ & _ & E); discriminate E.
  - split; auto.
  - split; [discriminate|]. intros (_ & E & _); discriminate E.
Qed.

Lemma exchange_error_iff_witness :
  outcome Sample.isoOf
          {| authorizer := fun _ => true; sts := fun _ => None; now := 0%Z |}
          (Sample.request "read-only" "mybucket" "team/" None)
  = Some (Rejected StsError).
Proof.
  apply (proj2 (exchange_error_iff Z Sample.isoOf
                  {| authorizer := fun _ => true; sts := fun _ => None;
                     now := 0%Z |}
                  (Sample.request "read-only" "mybucket" "team/" None))).
  repeat split. left; reflexivity.
Defined.

(** X3. A request is answered with credentials exactly when its level is
    valid, the authorizer accepts it, its prefix does not start with a
    slash and STS returns credentials for its policy. *)
Theorem success_iff
  (Date : Type) (toJSON : Date -> string) (env : Env Date) (req : Request) :
  (exists o body,
     outcome toJSON env req = Some o /\ successBody o = Some body)
  <-> (level req = "read-only" \/ level req = "read-write")
      /\ authorizer env (authorizeParams req) = true
      /\ JS.firstCharIs "/" (prefix req) = false
      /\ exists c,
           sts env (federationTokenRequest (level req) (bucket req)
                      (prefix req)) = Some c.
Proof.
  run_analysis env req.
  - split.
    + intros (o & body & [= <-] & H). discriminate H.
    + intros [[E|E] _]; tauto.
  - split.
    + intros (o & body & [= <-] & H). discriminate H.
    + intros (_ & _ & E & _); discriminate E.
  - split.
    + intros _. repeat split; auto. eexists; reflexivity.
    + intros _. destruct (formatIsCompat (format req));
        do 2 eexists; split; reflexivity.
  - split.
    + intros (o & body & [= <-] & H). discriminate H.
    + intros (_ & _ & _ & c & E); discriminate E.
  - split.
    + intros (o & body & [= <-] & H). discriminate H.
    + intros (_ & E & _); discriminate E.
Qed.

Lemma success_iff_witness :
  exists o body,
    outcome Sample.isoOf (Sample.env true)
            (Sample.request "read-only" "mybucket" "team/" None) = Some o
    /\ successBody o = Some body.
Proof.
  apply (proj2 (success_iff Z Sample.isoOf (Sample.env true)
                  (Sample.request "read-only" "mybucket" "team/" None))).
  split; [left; reflexivity|]. split; [reflexivity|]. split; [reflexivity|].
  exists Sample.credentials. reflexivity.
Defined.

(** X4. The handler reports an error of its own exactly when the level is
    invalid, or the level is valid, the authorizer has accepted and the
    prefix starts with a slash; the kind of the error is always
    [InputError]. *)
Theorem input_error_iff
  (Date : Type) (toJSON : Date -> string) (env : Env Date) (req : Request) :
  ((exists kind message details,
      outcome toJSON env req = Some (ReportError kind message details))
   <-> (level req <> "read-only" /\ level req <> "read-write")
       \/ ((level req = "read-only" \/ level req = "read-write")
           /\ authorizer env (authorizeParams req) = true
           /\ JS.firstCharIs "/" (prefix req) = true))
  /\ (forall kind message details,
        outcome toJSON env req = Some (ReportError kind message details) ->
        kind = "InputError").
Proof.
  run_analysis env req.
  - split.
    + split; [auto|]. intros _. do 3 eexists. reflexivity.
    + intros k m d [= <- _ _]. reflexivity.
  - split.
    + split; [auto|]. intros _. do 3 eexists. reflexivity.
    + intros k m d [= <- _ _]. reflexivity.
  - split.
    + split.
      * intros (k & m & d & H). destruct (formatIsCompat _); discriminate H.
      * intros [[H1 H2]|(_ & _ & E)]; [|discriminate E].
        destruct Hlevel as [E|E]; tauto.
    + intros k m d H. destruct (formatIsCompat _); discriminate H.
  - split.
    + split.
      * intros (k & m & d & H). discriminate H.
      * intros [[H1 H2]|(_ & _ & E)]; [|discriminate E].
        destruct Hlevel as [E|E]; tauto.
    + intros k m d H. discriminate H.
  - split.
    + split.
      * intros (k & m & d & H). discriminate H.
      * intros [[H1 H2]|(_ & E & _)]; [|discriminate E].
        destruct Hlevel as [E|E]; tauto.
    + intros k m d H. discriminate H.
Qed.

Lemma input_error_iff_witness :
  exists kind message details,
    outcome Sample.isoOf (Sample.env true)
            (Sample.request "read-only" "mybucket" "/team" None)
    = Some (ReportError kind message details).
Proof.
  apply (proj2 (proj1 (input_error_iff Z Sample.isoOf (Sample.env true)
                  (Sample.request "read-only" "mybucket" "/team" None)))).
  right. split; [left; reflexivity|]. split; reflexivity.
Defined.

(** X5. STS is called exactly in the runs that end with credentials or
    with the failure of the exchange: a run that ends with an input error
    or with the error of the authorizer has not called STS. *)
Theorem exchange_called_iff
  (Date : Type) (toJSON : Date -> string) (env : Env Date) (req : Request) :
  (exists r, In (CallGetFederationToken r) (calls toJSON env req))
  <-> (exists o, outcome toJSON env req = Some o
                 /\ (o = Rejected StsError
                     \/ exists body, successBody o = Some body)).
Proof.
  run_analysis env req.
  - split; [intros (r & [])|].
    intros (o & [= <-] & [H|(b & H)]); discriminate H.
  - split.
    + intros (r & [H|[]]). discriminate H.
    + intros (o & [= <-] & [H|(b & H)]); discriminate H.
  - split.
    + intros _. eexists. split; [reflexivity|]. right.
      destruct (formatIsCompat _); eexists; reflexivity.
    + intros _. eexists. right. left. reflexivity.
  - split.
    + intros _. eexists. split; [reflexivity|]. left. reflexivity.
    + intros _. eexists. right. left. reflexivity.
  - split.
    + intros (r & [H|[]]). discriminate H.
    + intros (o & [= <-] & [H|(b & H)]); discriminate H.
Qed.

Lemma exchange_called_iff_witness :
  exists r,
    In (CallGetFederationToken r)
       (calls Sample.isoOf (Sample.env true)
          (Sample.request "read-only" "mybucket" "team/" None)).
Proof.
  apply (proj2 (exchange_called_iff Z Sample.isoOf (Sample.env true)
                  (Sample.request "read-only" "mybucket" "team/" None))).
  eexists. split; [reflexivity|]. right. eexists. reflexivity.
Defined.

(** X6. A successful response carries the credentials STS returned for
    the policy of the request: in the compatible format under the keys
    [AccessKeyId], [SecretAccessKey], [Token] and [Expiration], with the
    time of the reply under [LastUpdated]; in the native format under
    [credentials] and [expires]. *)
Theorem response_carries_credentials
  (Date : Type) (toJSON : Date -> string) (env : Env Date) (req : Request)
  (o : Outcome) (body : json) :
  outcome toJSON env req = Some o ->
  successBody o = Some body ->
  exists c,
    sts env (federationTokenRequest (level req) (bucket req) (prefix req))
    = Some c
    /\ ((format req = Some "iam-role-compat"
         /\ JSON.get "AccessKeyId" body = Some (JString (AccessKeyId c))
         /\ JSON.get "SecretAccessKey" body
            = Some (JString (SecretAccessKey c))
         /\ JSON.get "Token" body = Some (JString (SessionToken c))
         /\ JSON.get "Expiration" body
            = Some (JString (toJSON (Expiration c)))
         /\ JSON.get "LastUpdated" body = Some (JString (toJSON (now env))))
        \/ (format req <> Some "iam-role-compat"
            /\ JSON.get "credentials" body
               = Some (JObject
                         [("accessKeyId", JString (AccessKeyId c));
                          ("secretAccessKey", JString (SecretAccessKey c));
                          ("sessionToken", JString (SessionToken c))])
            /\ JSON.get "expires" body
               = Some (JString (toJSON (Expiration c))))).
Proof.
  run_analysis env req; try (intros [= <-]; discriminate).
  intros [= <-].
  destruct (format req) as [f|] eqn:Ef; cbn [formatIsCompat].
  - destruct (String.eqb f "iam-role-compat") eqn:E.
    + apply String.eqb_eq in E. subst f.
      cbn [successBody Z.eqb Pos.eqb]. intros [= <-].
      eexists. split; [reflexivity|]. left. repeat split.
    + apply String.eqb_neq in E.
      cbn [successBody]. intros [= <-].
      eexists. split; [reflexivity|]. right.
      split; [intros [= Hf]; contradiction|]. split; reflexivity.
  - cbn [successBody]. intros [= <-].
    eexists. split; [reflexivity|]. right.
    split; [discriminate|]. split; reflexivity.
Qed.

Lemma response_carries_credentials_witness :
  exists c,
    sts (Sample.env true)
        (federationTokenRequest "read-only" "mybucket" "team/") = Some c
    /\ ((Some "iam-role-compat" = Some "iam-role-compat"
         /\ JSON.get "AccessKeyId"
              (iamRoleCompat Sample.isoOf 0%Z Sample.credentials)
            = Some (JString (AccessKeyId c))
         /\ JSON.get "SecretAccessKey"
              (iamRoleCompat Sample.isoOf 0%Z Sample.credentials)
            = Some (JString (SecretAccessKey c))
         /\ JSON.get "Token"
              (iamRoleCompat Sample.isoOf 0%Z Sample.credentials)
            = Some (JString (SessionToken c))
         /\ JSON.get "Expiration"
              (iamRoleCompat Sample.isoOf 0%Z Sample.credentials)
            = Some (JString (Sample.isoOf (Expiration c)))
         /\ JSON.get "LastUpdated"
              (iamRoleCompat Sample.isoOf 0%Z Sample.credentials)
            = Some (JString (Sample.isoOf 0%Z)))
        \/ (Some "iam-role-compat" <> Some "iam-role-compat"
            /\ JSON.get "credentials"
                 (iamRoleCompat Sample.isoOf 0%Z Sample.credentials)
               = Some (JObject
                         [("accessKeyId", JString (AccessKeyId c));
                          ("secretAccessKey", JString (SecretAccessKey c));
                          ("sessionToken", JString (SessionToken c))])
            /\ JSON.get "expires"
                 (iamRoleCompat Sample.isoOf 0%Z Sample.credentials)
               = Some (JString (Sample.isoOf (Expiration c))))).
Proof.
  exact (response_carries_credentials Z Sample.isoOf (Sample.env true)
           (Sample.request "read-only" "mybucket" "team/"
              (Some "iam-role-compat"))
           (StatusJson 200 (iamRoleCompat Sample.isoOf 0%Z Sample.credentials))
           (iamRoleCompat Sample.isoOf 0%Z Sample.credentials)
           eq_refl eq_refl).
Defined.

(** X7. The [format] option plays no part before the reply is rendered:
    the calls of a run (the question put to the authorizer and the policy
    sent to STS) are the same for every value of the option, and so is
    every outcome that is not a successful response. *)
Theorem format_only_renders
  (Date : Type) (toJSON : Date -> string) (env : Env Date) (req : Request)
  (f : option string) :
  calls toJSON env (withFormat f req) = calls toJSON env req
  /\ (forall o,
        outcome toJSON env (withFormat f req) = Some o ->
        successBody o = None ->
        outcome toJSON env req = Some o).
Proof.
  unfold calls, outcome. rewrite !run_cases. cbv zeta.
  change (authorizeParams (withFormat f req)) with (authorizeParams req).
  cbn [withFormat level bucket prefix format].
  destruct (levelRejected _); [split; auto|].
  destruct (authorizer _ _); [|split; auto].
  destruct (JS.firstCharIs _ _); [split; auto|].
  destruct (sts _ _) as [c|]; [|split; auto].
  split; [reflexivity|]. cbn [snd]. intros o [= <-].
  destruct (formatIsCompat f); intros H; discriminate H.
Qed.

Lemma format_only_renders_witness :
  outcome Sample.isoOf (Sample.env false)
          (Sample.request "read-only" "mybucket" "team/" None)
  = Some (Rejected AuthorizationError).
Proof.
  exact (proj2 (format_only_renders Z Sample.isoOf (Sample.env false)
                  (Sample.request "read-only" "mybucket" "team/" None)
                  (Some "iam-role-compat"))
               (Rejected AuthorizationError) eq_refl eq_refl).
Defined.

(** X8. Whatever the level, bucket and prefix, the policy has exactly
    three statements, each with the effect [Allow]; the second allows
    [s3:ListBucket] alone and is the only one with a condition, the third
    allows [s3:GetBucketLocation] alone on the same resource as the
    second.  The level enters the policy through the actions of the first
    statement only. *)
Theorem policy_shape (l b p : string) :
  let doc := policy l b p in
  JSON.keys doc = ["Version"; "Statement"]
  /\ JSON.get "Version" doc = Some (JString "2012-10-17")
  /\ statement 3 doc = None
  /\ (forall i st, statement i doc = Some st ->
                   JSON.get "Effect" st = Some (JString "Allow"))
  /\ statementField 1 "Action" doc = Some ["s3:ListBucket"]
  /\ statementField 2 "Action" doc = Some ["s3:GetBucketLocation"]
  /\ statementField 2 "Resource" doc = statementField 1 "Resource" doc
  /\ (forall i st, statement i doc = Some st ->
                   (JSON.get "Condition" st <> None <-> i = 1))
  /\ (forall l', statementField 0 "Resource" (policy l' b p)
                 = statementField 0 "Resource" doc
                 /\ statement 1 (policy l' b p) = statement 1 doc
                 /\ statement 2 (policy l' b p) = statement 2 doc).
Proof.
  cbv zeta.
  assert (Hst : forall i st, statement i (policy l b p) = Some st ->
            (i = 0 \/ i = 1 \/ i = 2)
            /\ JSON.get "Effect" st = Some (JString "Allow")
            /\ (JSON.get "Condition" st <> None <-> i = 1)).
  { intros i st.
    unfold statement, policy.
    cbn [JSON.get JSON.lookup JSON.at_ String.eqb Ascii.eqb Bool.eqb].
    destruct i as [|[|[|i]]]; cbn [nth_error].
    - intros [= <-]. split; [auto|]. split; [reflexivity|].
      cbn [JSON.get JSON.lookup String.eqb Ascii.eqb Bool.eqb].
      split; [congruence|discriminate].
    - intros [= <-]. split; [auto|]. split; [reflexivity|].
      cbn [JSON.get JSON.lookup String.eqb Ascii.eqb Bool.eqb].
      split; [reflexivity|discriminate].
    - intros [= <-]. split; [auto|]. split; [reflexivity|].
      cbn [JSON.get JSON.lookup String.eqb Ascii.eqb Bool.eqb].
      split; [congruence|discriminate].
    - destruct i; discriminate. }
  split; [reflexivity|]. split; [reflexivity|]. split; [reflexivity|].
  split; [intros i st H; apply (Hst i st H)|].
  split; [reflexivity|]. split; [reflexivity|]. split; [reflexivity|].
  split; [intros i st H; apply (Hst i st H)|].
  intros l'. repeat split.
Qed.

Lemma policy_shape_witness :
  JSON.get "Effect"
    (JObject [("Sid", JString "GetBucketLocation");
              ("Effect", JString "Allow");
              ("Action", jstrings ["s3:GetBucketLocation"]);
              ("Resource", jstrings [bucketResource "mybucket"])])
  = Some (JString "Allow").
Proof.
  exact (proj1 (proj2 (proj2 (proj2
           (policy_shape "read-only" "mybucket" "team/")))) 2 _ eq_refl).
Defined.

(* ------------------------------------------------------------------ *)
(** ** Templating of the resources                                      *)
(* ------------------------------------------------------------------ *)

(** The text inserted for the prefix into the object resource of a plain
    bucket. *)
Lemma objectResource_plain_bucket (b p : string) :
  plainName b = true ->
  objectResource b p
  = "arn:aws:s3:::" ++ b ++ "/"
    ++ JS.GetSubstitution "{{prefix}}" ("arn:aws:s3:::" ++ b ++ "/") "*" p
    ++ "*".
Proof.
  intros Hb. unfold plainName in Hb.
  apply andb_prop in Hb. destruct Hb as [Hdollar Hbrace].
  unfold objectResource.
  rewrite (replace_found "{{bucket}}" b _ "arn:aws:s3:::" "/{{prefix}}*")
    by reflexivity.
  rewrite (GetSubstitution_plain _ _ _ _ Hdollar).
  assert (Hsplit :
    JS.splitAtFirst "{{prefix}}" ("arn:aws:s3:::" ++ b ++ "/{{prefix}}*")
    = Some ("arn:aws:s3:::" ++ b ++ "/", "*")).
  { replace ("arn:aws:s3:::" ++ b ++ "/{{prefix}}*")
      with (("arn:aws:s3:::" ++ b ++ "/") ++ "{{prefix}}*")
      by (rewrite !append_assoc; reflexivity).
    rewrite splitAtFirst_skip.
    - change (JS.splitAtFirst "{{prefix}}" "{{prefix}}*")
        with (Some (EmptyString, "*")).
      cbv iota beta. now rewrite append_empty_r.
    - rewrite !noChar_app, Hbrace. reflexivity. }
  rewrite (replace_found _ _ _ _ _ Hsplit).
  rewrite !append_assoc. reflexivity.
Qed.

(** The text before the match matters to a replacement only through the
    backtick form. *)
Lemma GetSubstitution_before (matched b1 b2 after template : string) :
  noChar "`" template = true ->
  JS.GetSubstitution matched b1 after template
  = JS.GetSubstitution matched b2 after template.
Proof.
  remember (String.length template) as n eqn:Hn.
  revert template Hn.
  induction n as [n IH] using lt_wf_ind. intros template Hn Ht.
  destruct template as [|c rest]; [reflexivity|].
  cbn [noChar] in Ht. apply andb_prop in Ht. destruct Ht as [_ Hrest].
  cbn [JS.GetSubstitution].
  assert (Hrec : JS.GetSubstitution matched b1 after rest
                 = JS.GetSubstitution matched b2 after rest).
  { apply (IH (String.length rest)); [subst n; cbn; lia|reflexivity|assumption]. }
  destruct (Ascii.eqb c "$"); [|now rewrite Hrec].
  destruct rest as [|d rest']; [reflexivity|].
  cbn [noChar] in Hrest. apply andb_prop in Hrest.
  destruct Hrest as [Hd Hrest'].
  assert (Hrec' : JS.GetSubstitution matched b1 after rest'
                  = JS.GetSubstitution matched b2 after rest').
  { apply (IH (String.length rest'));
      [subst n; cbn; lia|reflexivity|assumption]. }
  apply negb_true_iff in Hd.
  destruct (Ascii.eqb d "$"); [now rewrite Hrec'|].
  destruct (Ascii.eqb d "&"); [now rewrite Hrec'|].
  rewrite Hd.
  destruct (Ascii.eqb d "'"); [now rewrite Hrec'|].
  now rewrite Hrec.
Qed.

(** X10. For a plain bucket name, whatever the prefix, the object
    resource of the policy lies in the bucket asked for: it is the ARN of
    the bucket, a slash, the text [replace] inserts for the prefix and the
    wildcard; the list and location statements name the bucket itself. *)
Theorem object_resource_within_bucket (l b p : string) :
  plainName b = true ->
  let doc := policy l b p in
  (exists inserted,
     statementField 0 "Resource" doc
     = Some ["arn:aws:s3:::" ++ b ++ "/" ++ inserted ++ "*"])
  /\ statementField 1 "Resource" doc = Some ["arn:aws:s3:::" ++ b]
  /\ statementField 2 "Resource" doc = Some ["arn:aws:s3:::" ++ b].
Proof.
  intros Hb doc.
  assert (Hd : noChar "$" b = true).
  { unfold plainName in Hb. now apply andb_prop in Hb. }
  unfold doc, statementField, statement, policy.
  cbn [JSON.get JSON.lookup JSON.at_ nth_error String.eqb Ascii.eqb Bool.eqb
       option_map].
  rewrite !strings_jstrings.
  rewrite (objectResource_plain_bucket _ p Hb), (bucketResource_plain _ Hd).
  split; [eexists; reflexivity|]. split; reflexivity.
Qed.

Lemma object_resource_within_bucket_witness :
  exists inserted,
    statementField 0 "Resource" (policy "read-only" "mybucket" "$`")
    = Some ["arn:aws:s3:::" ++ "mybucket" ++ "/" ++ inserted ++ "*"].
Proof.
  exact (proj1 (object_resource_within_bucket "read-only" "mybucket" "$`"
                  eq_refl)).
Defined.

(** X11. For a plain bucket name and a prefix without backtick, the object
    statement and the list statement agree: the object resource is the
    ARN of the bucket, a slash and the very pattern the list statement
    puts on [s3:prefix], also when [replace] rewrites the prefix. *)
Theorem object_resource_matches_list_condition (l b p : string) :
  plainName b = true ->
  noChar "`" p = true ->
  forall pattern,
    listCondition (policy l b p) = Some [pattern] ->
    statementField 0 "Resource" (policy l b p)
    = Some ["arn:aws:s3:::" ++ b ++ "/" ++ pattern].
Proof.
  intros Hb Hp pattern.
  unfold listCondition, statementField, statement, policy.
  cbn [JSON.get JSON.lookup JSON.at_ nth_error String.eqb Ascii.eqb Bool.eqb
       option_map].
  rewrite !strings_jstrings.
  intros [= <-].
  rewrite (objectResource_plain_bucket _ p Hb).
  unfold listPrefixCondition.
  rewrite (replace_found _ p _ EmptyString "*") by reflexivity.
  rewrite (GetSubstitution_before _ _ EmptyString _ _ Hp).
  reflexivity.
Qed.

Lemma object_resource_matches_list_condition_witness :
  statementField 0 "Resource" (policy "read-only" "mybucket" "a$$b/")
  = Some ["arn:aws:s3:::" ++ "mybucket" ++ "/" ++ "a$b/*"].
Proof.
  exact (object_resource_matches_list_condition "read-only" "mybucket" "a$$b/"
           eq_refl eq_refl "a$b/*" eq_refl).
Defined.

(* ------------------------------------------------------------------ *)
(** ** The policy text determines the policy document                   *)
(* ------------------------------------------------------------------ *)

Lemma stringBody_quoteChar (c : ascii) (tail : string) :
  Decode.stringBody (JSON.quoteChar c ++ tail)
  = Decode.consChar c (Decode.stringBody tail).
Proof.
  destruct c as [[] [] [] [] [] [] [] []]; reflexivity.
Qed.

Lemma stringBody_quoteBody (s rest : string) :
  Decode.stringBody
    (JSON.quoteBody s ++ String (ascii_of_nat 34) rest)
  = Some (s, rest).
Proof.
  induction s as [|c s IH].
  - reflexivity.
  - cbn [JSON.quoteBody]. rewrite append_assoc, stringBody_quoteChar, IH.
    reflexivity.
Qed.

Lemma quote_append (s rest : string) :
  JSON.quote s ++ rest
  = String (ascii_of_nat 34)
           (JSON.quoteBody s ++ String (ascii_of_nat 34) rest).
Proof.
  unfold JSON.quote. cbn [append]. now rewrite append_assoc.
Qed.

(** The text of a value starts with a quote, a bracket or a brace. *)
Lemma stringify_head (v : json) :
  exists c t,
    JSON.stringify v = String c t
    /\ Ascii.eqb c "]" = false /\ Ascii.eqb c "}" = false.
Proof.
  destruct v as [s|vs|kvs]; cbn [JSON.stringify]; unfold JSON.quote;
    do 2 eexists; (split; [reflexivity|split; reflexivity]).
Qed.

Lemma decode_stringify (fuel : nat) :
  (forall v rest,
     Decode.size v <= fuel ->
     Decode.value fuel (JSON.stringify v ++ rest) = Some (v, rest))
  /\ (forall v vs rest,
        sizes (v :: vs) <= fuel ->
        Decode.items fuel
          (JSON.commaSep (map JSON.stringify (v :: vs)) ++ String "]" rest)
        = Some (v :: vs, rest))
  /\ (forall kv kvs rest,
        memberSizes (kv :: kvs) <= fuel ->
        Decode.fields fuel
          (JSON.commaSep (map member (kv :: kvs)) ++ String "}" rest)
        = Some (kv :: kvs, rest)).
Proof.
  induction fuel as [|f (IHv & IHi & IHf)].
  - split; [|split].
    + intros [s|vs|kvs] rest H; cbn in H; lia.
    + intros v vs rest H. cbn in H. lia.
    + intros kv kvs rest H. cbn in H. lia.
  - split; [|split].
    + intros [s|vs|kvs] rest H.
      * cbn [JSON.stringify]. rewrite quote_append.
        cbn [Decode.value]. cbn [nat_of_ascii ascii_of_nat Nat.eqb].
        change (Nat.eqb (nat_of_ascii (ascii_of_nat 34)) 34) with true.
        cbv iota. now rewrite stringBody_quoteBody.
      * cbn [JSON.stringify]. destruct vs as [|v vs].
        -- reflexivity.
        -- change (Decode.size (JArray (v :: vs)))
             with (S (sizes (v :: vs))) in H.
           specialize (IHi v vs rest ltac:(lia)).
           change ("[" ++ JSON.commaSep (map JSON.stringify (v :: vs)) ++ "]")
             with (String "[" (JSON.commaSep (map JSON.stringify (v :: vs))
                               ++ "]")).
           cbn [append]. rewrite append_assoc. cbn [append].
           remember (JSON.commaSep (map JSON.stringify (v :: vs))
                     ++ String "]" rest) as text eqn:Ht.
           assert (Hhead : exists c t, text = String c t
                                       /\ Ascii.eqb c "]" = false).
           { destruct (stringify_head v) as (c & t & Hv & Hc & _).
             subst text. destruct vs as [|v' vs];
               cbn [map JSON.commaSep String.concat]; rewrite Hv;
               cbn [append]; do 2 eexists; split; try reflexivity; exact Hc. }
           destruct Hhead as (c & t & Hc & Hne).
           cbn [Decode.value]. rewrite Hc.
           change (Nat.eqb (nat_of_ascii "[") 34) with false.
           cbv iota. change (Ascii.eqb "[" "[") with true. cbv iota.
           rewrite Hne. rewrite <- Hc, IHi. reflexivity.
      * cbn [JSON.stringify]. destruct kvs as [|kv kvs].
        -- reflexivity.
        -- change (Decode.size (JObject (kv :: kvs)))
             with (S (memberSizes (kv :: kvs))) in H.
           specialize (IHf kv kvs rest ltac:(lia)).
           change (map (fun kv0 : string * json =>
                          JSON.quote (fst kv0) ++ ":"
                          ++ JSON.stringify (snd kv0)) (kv :: kvs))
             with (map member (kv :: kvs)).
           cbn [append]. rewrite append_assoc. cbn [append].
           remember (JSON.commaSep (map member (kv :: kvs))
                     ++ String "}" rest) as text eqn:Ht.
           assert (Hhead : exists c t, text = String c t
                                       /\ Ascii.eqb c "}" = false).
           { subst text. destruct kvs as [|kv' kvs];
               cbn [map JSON.commaSep String.concat]; unfold member at 1;
               unfold JSON.quote; cbn [append]; do 2 eexists;
               split; try reflexivity. }
           destruct Hhead as (c & t & Hc & Hne).
           cbn [Decode.value]. rewrite Hc.
           change (Nat.eqb (nat_of_ascii "{") 34) with false.
           cbv iota. change (Ascii.eqb "{" "[") with false.
           change (Ascii.eqb "{" "{") with true. cbv iota.
           rewrite Hne. rewrite <- Hc, IHf. reflexivity.
    + intros v vs rest H.
      change (sizes (v :: vs)) with (S (Decode.size v + sizes vs)) in H.
      cbn [Decode.items]. destruct vs as [|v' vs].
      * cbn [map JSON.commaSep String.concat].
        rewrite IHv by lia. cbn [append]. reflexivity.
      * change (JSON.commaSep (map JSON.stringify (v :: v' :: vs)))
          with (JSON.stringify v ++ ","
                ++ JSON.commaSep (map JSON.stringify (v' :: vs))).
        rewrite !append_assoc. rewrite IHv by lia.
        cbn [append]. change (Ascii.eqb "," ",") with true. cbv iota.
        rewrite IHi by lia. reflexivity.
    + intros [k v] kvs rest H.
      change (memberSizes ((k, v) :: kvs))
        with (S (Decode.size v + memberSizes kvs)) in H.
      assert (Hkey : forall tail,
                member (k, v) ++ tail
                = String (ascii_of_nat 34)
                    (JSON.quoteBody k
                     ++ String (ascii_of_nat 34)
                          (String ":" (JSON.stringify v ++ tail)))).
      { intros tail. unfold member. cbn [fst snd].
        rewrite append_assoc, quote_append. cbn [append].
        reflexivity. }
      destruct kvs as [|kv' kvs].
      * cbn [map JSON.commaSep String.concat]. rewrite Hkey.
        cbn [Decode.fields].
        change (Nat.eqb (nat_of_ascii (ascii_of_nat 34)) 34) with true.
        cbv iota. rewrite stringBody_quoteBody.
        change (Ascii.eqb ":" ":") with true. cbv iota.
        rewrite IHv by lia. cbn [append]. reflexivity.
      * change (JSON.commaSep (map member ((k, v) :: kv' :: kvs)))
          with (member (k, v) ++ ","
                ++ JSON.commaSep (map member (kv' :: kvs))).
        rewrite append_assoc, Hkey.
        cbn [Decode.fields].
        change (Nat.eqb (nat_of_ascii (ascii_of_nat 34)) 34) with true.
        cbv iota. rewrite stringBody_quoteBody.
        change (Ascii.eqb ":" ":") with true. cbv iota.
        rewrite append_assoc. rewrite IHv by lia.
        cbn [append]. change (Ascii.eqb "," ",") with true. cbv iota.
        rewrite IHf by lia. reflexivity.
Qed.

Lemma stringify_inj (v v' : json) :
  JSON.stringify v = JSON.stringify v' -> v = v'.
Proof.
  intros H.
  pose proof (proj1 (decode_stringify (Decode.size v + Decode.size v'))
                v EmptyString ltac:(lia)) as H1.
  pose proof (proj1 (decode_stringify (Decode.size v + Decode.size v'))
                v' EmptyString ltac:(lia)) as H2.
  rewrite H, H2 in H1. now injection H1.
Qed.

(** What the accessors read in a policy. *)
Lemma policy_fields (l b p : string) :
  statementField 0 "Action" (policy l b p) = Some (objectActions l)
  /\ statementField 0 "Resource" (policy l b p) = Some [objectResource b p]
  /\ statementField 1 "Resource" (policy l b p) = Some [bucketResource b]
  /\ listCondition (policy l b p) = Some [listPrefixCondition p].
Proof.
  unfold statementField, listCondition, statement, policy.
  cbn [JSON.get JSON.lookup JSON.at_ nth_error String.eqb Ascii.eqb Bool.eqb
       option_map].
  rewrite !strings_jstrings. repeat split.
Qed.

(** X12. The text [JSON.stringify] makes of a document determines the
    document: quotes, backslashes and control characters of a bucket or
    prefix are escaped and cannot change the structure of the policy.
    Two policies with the same text allow the same object actions on the
    same object resource and have the same bucket resource and list
    condition. *)
Theorem policy_text_determines_document :
  (forall v v' : json, JSON.stringify v = JSON.stringify v' -> v = v')
  /\ (forall l b p l' b' p',
        Policy (federationTokenRequest l b p)
        = Policy (federationTokenRequest l' b' p') ->
        objectActions l = objectActions l'
        /\ objectResource b p = objectResource b' p'
        /\ bucketResource b = bucketResource b'
        /\ listPrefixCondition p = listPrefixCondition p').
Proof.
  split; [exact stringify_inj|].
  intros l b p l' b' p' H. cbn [Policy federationTokenRequest] in H.
  apply stringify_inj in H.
  destruct (policy_fields l b p) as (Ha & Ho & Hb & Hc).
  destruct (policy_fields l' b' p') as (Ha' & Ho' & Hb' & Hc').
  rewrite H in Ha, Ho, Hb, Hc.
  rewrite Ha' in Ha. rewrite Ho' in Ho. rewrite Hb' in Hb. rewrite Hc' in Hc.
  repeat split; congruence.
Qed.

Lemma policy_text_determines_document_witness :
  Policy (federationTokenRequest "read-only" "mybucket" "$$")
  = Policy (federationTokenRequest "nonsense" "mybucket" "$")
  /\ objectActions "read-only" = objectActions "nonsense"
  /\ objectResource "mybucket" "$$" = objectResource "mybucket" "$"
  /\ bucketResource "mybucket" = bucketResource "mybucket"
  /\ listPrefixCondition "$$" = listPrefixCondition "$".
Proof.
  assert (H : Policy (federationTokenRequest "read-only" "mybucket" "$$")
              = Policy (federationTokenRequest "nonsense" "mybucket" "$")).
  { vm_compute. reflexivity. }
  split; [exact H|].
  exact (proj2 policy_text_determines_document
           "read-only" "mybucket" "$$" "nonsense" "mybucket" "$" H).
Defined.

(* ------------------------------------------------------------------ *)
(** ** What the authorizer and STS are asked                            *)
(* ------------------------------------------------------------------ *)

(** X13. For a valid level the authorizer is asked exactly once, about
    the level, bucket and prefix as they came with the request, and
    [levelIsReadOnly] is set exactly for the level [read-only]. *)
Theorem authorizer_sees_request
  (Date : Type) (toJSON : Date -> string) (env : Env Date) (req : Request) :
  (level req = "read-only" \/ level req = "read-write") ->
  exists p rest,
    calls toJSON env req = CallAuthorize p :: rest
    /\ (forall q, ~ In (CallAuthorize q) rest)
    /\ authLevel p = level req
    /\ authBucket p = bucket req
    /\ authPrefix p = prefix req
    /\ (levelIsReadOnly p = true <-> level req = "read-only").
Proof.
  intros Hvalid.
  assert (Hro : levelIsReadOnly (authorizeParams req) = true
                <-> level req = "read-only").
  { cbn [levelIsReadOnly authorizeParams]. apply String.eqb_eq. }
  exists (authorizeParams req).
  run_analysis env req.
  - destruct Hvalid; tauto.
  - exists []. repeat split; auto; apply Hro.
  - eexists. split; [reflexivity|].
    split; [intros q [H|[]]; discriminate H|].
    repeat split; auto; apply Hro.
  - eexists. split; [reflexivity|].
    split; [intros q [H|[]]; discriminate H|].
    repeat split; auto; apply Hro.
  - exists []. repeat split; auto; apply Hro.
Qed.

Lemma authorizer_sees_request_witness :
  exists p rest,
    calls Sample.isoOf (Sample.env true)
          (Sample.request "read-write" "mybucket" "$'" None)
    = CallAuthorize p :: rest
    /\ (forall q, ~ In (CallAuthorize q) rest)
    /\ authLevel p = "read-write"
    /\ authBucket p = "mybucket"
    /\ authPrefix p = "$'"
    /\ (levelIsReadOnly p = true <-> "read-write" = "read-only").
Proof.
  exact (authorizer_sees_request Z Sample.isoOf (Sample.env true)
           (Sample.request "read-write" "mybucket" "$'" None)
           (or_intror eq_refl)).
Defined.

(** X14. Every call of STS comes after a call of the authorizer that
    accepted, and the policy sent is built from the very level, bucket
    and prefix the authorizer was asked about, under the fixed name
    [TemporaryS3ReadWriteCredentials]. *)
Theorem policy_built_from_authorized_parameters
  (Date : Type) (toJSON : Date -> string) (env : Env Date) (req : Request)
  (r : FederationTokenRequest) :
  In (CallGetFederationToken r) (calls toJSON env req) ->
  exists p,
    calls toJSON env req = [CallAuthorize p; CallGetFederationToken r]
    /\ authorizer env p = true
    /\ Name r = "TemporaryS3ReadWriteCredentials"
    /\ Policy r
       = JSON.stringify (policy (authLevel p) (authBucket p) (authPrefix p)).
Proof.
  intros H.
  destruct (calls_sts _ _ _ _ _ H) as (-> & Hl & Ha & Hs).
  exists (authorizeParams req).
  rewrite (valid_authorized_reaches_sts _ toJSON env req Hl Ha Hs).
  repeat split. exact Ha.
Qed.

Lemma policy_built_from_authorized_parameters_witness :
  exists p,
    calls Sample.isoOf (Sample.env true)
          (Sample.request "read-only" "mybucket" "team/" None)
    = [CallAuthorize p;
       CallGetFederationToken
         (federationTokenRequest "read-only" "mybucket" "team/")]
    /\ authorizer (Sample.env true) p = true
    /\ Name (federationTokenRequest "read-only" "mybucket" "team/")
       = "TemporaryS3ReadWriteCredentials"
    /\ Policy (federationTokenRequest "read-only" "mybucket" "team/")
       = JSON.stringify (policy (authLevel p) (authBucket p) (authPrefix p)).
Proof.
  apply (policy_built_from_authorized_parameters Z Sample.isoOf
           (Sample.env true)
           (Sample.request "read-only" "mybucket" "team/" None)).
  vm_compute. right. left. reflexivity.
Defined.
